(** * HighwayEnv: reward evaluation, termination and the lane-distance query

    A shallow embedding of [highway_env/envs/highway_env.py]: the classes
    [HighwayEnv] (base policy) and [DevHighway] (extended policy).

    Conventions of the embedding.
    - Python numbers (int and float) are exact rationals [Q]; equality of
      computed scalars is [Qeq] ([==]).
    - A Python exception is a [Raise] in the result type [Res]; code that
      assigns to attributes of [self] runs in the state-and-error monad [M].
    - [self.config] is a string-keyed finite map; the dictionary returned by
      [_rewards] is an association list in insertion order, which is the
      order [rewards.items()] iterates in.
    - The road and vehicle subsystems, numpy and [AbstractEnv] are not part
      of this file of the repository: they are the fields of the classes
      [LaneGeometry] and [Collaborators]. *)

From Stdlib Require Import QArith Qabs Qminmax Lqa ZArith Lia.
From stdpp Require Import gmap strings list.

(** ** Python values, exceptions and results *)

Inductive Value : Type :=
| VNum (q : Q)
| VBool (b : bool)
| VNone
| VStr (s : string)
| VList (l : list Q)
| VDict (items : list (string * string)).

Inductive PyError : Type :=
| KeyError (k : string)
| TypeError
| IndexError
| ZeroDivisionError.

Inductive Res (A : Type) : Type :=
| Ok (a : A)
| Raise (e : PyError).
Arguments Ok {A} a.
Arguments Raise {A} e.

#[export] Instance Res_ret : MRet Res := fun A a => Ok a.
#[export] Instance Res_bind : MBind Res := fun A B f m =>
  match m with
  | Ok a => f a
  | Raise e => Raise e
  end.

Abbreviation Config := (gmap string Value).
Abbreviation Components := (list (string * Q)).

(** [d[k]]: a missing key is a [KeyError]. *)
Definition getitem (d : Config) (k : string) : Res Value :=
  match d !! k with
  | Some v => Ok v
  | None => Raise (KeyError k)
  end.

(** [d.get(k, dflt)]: a missing key yields the default. *)
Definition dict_get (d : Config) (k : string) (dflt : Value) : Value :=
  default dflt (d !! k).

(** [d.update(items)]: the items are written in order, later ones win. *)
Definition dict_update (d : Config) (items : list (string * Value)) : Config :=
  foldl (fun acc kv => <[kv.1 := kv.2]> acc) d items.

(** [rewards[k]] on the dictionary returned by [_rewards]. *)
Fixpoint components_getitem (c : Components) (k : string) : Res Q :=
  match c with
  | [] => Raise (KeyError k)
  | (name, r) :: rest =>
      if String.eqb name k then Ok r else components_getitem rest k
  end.

(** A value used as an operand of [*], [+], [-] with a number: numbers and
    booleans are numeric, anything else is a [TypeError]. *)
Definition as_number (v : Value) : Res Q :=
  match v with
  | VNum q => Ok q
  | VBool b => Ok (if b then 1 else 0)%Q
  | _ => Raise TypeError
  end.

(** [d[k]] used as a number. *)
Definition config_number (d : Config) (k : string) : Res Q :=
  getitem d k ≫= as_number.

(** A value read as [x[0]], [x[1]] by [utils.lmap]. *)
Definition as_interval (v : Value) : Res (Q * Q) :=
  match v with
  | VList (lo :: hi :: _) => Ok (lo, hi)
  | VList _ => Raise IndexError
  | _ => Raise TypeError
  end.

(** Truth value of a Python object in [if] and [and]. *)
Definition truthy (v : Value) : bool :=
  match v with
  | VNum q => negb (Qeq_bool q 0)
  | VBool b => b
  | VNone => false
  | VStr s => negb (String.eqb s "")
  | VList l => negb (Nat.eqb (length l) 0)
  | VDict items => negb (Nat.eqb (length items) 0)
  end.

(** [float(b)] for a boolean [b]. *)
Definition float_of_bool (b : bool) : Q := if b then 1%Q else 0%Q.

(** [n / d] on Python ints: true division, [ZeroDivisionError] on [d = 0]. *)
Definition true_div (n d : Z) : Res Q :=
  if Z.eqb d 0 then Raise ZeroDivisionError
  else Ok (inject_Z n / inject_Z d)%Q.

(** [np.clip(v, lo, hi)]. *)
Definition np_clip (v lo hi : Q) : Q := Qmin (Qmax v lo) hi.

Module utils.

(** Modelled from the spec: [utils.lmap] is imported from
    [highway_env.utils], which is not among the sources.  It is the linear
    map of a value [v] from the range [x] to the range [y].  On the
    operands it receives here (numpy scalars) a zero-width range raises
    nothing; in this model [_ / 0] is [0]. *)
Definition lmap (v : Q) (x y : Q * Q) : Q :=
  (y.1 + (v - x.1) * (y.2 - y.1) / (x.2 - x.1))%Q.

End utils.

(** ** Data model *)

Definition Node : Type := string.
Definition LaneIndex : Type := Node * Node * Z.
Definition Position : Type := Q * Q.

(** An action is an integer (DiscreteMetaAction), given as a Python [int]
    or as a numpy integer scalar (what a Discrete space samples), or an array
    of floats (ContinuousAction). *)
Inductive Action : Type :=
| Discrete (a : Z)
| Continuous (a : list Q)
| DiscreteNumpy (a : Z).

(** [action[i]]: a Python [int] is not subscriptable ([TypeError]); a numpy
    scalar and an array that is too short reject the index ([IndexError]). *)
Definition action_item (action : Action) (i : nat) : Res Q :=
  match action with
  | Discrete _ => Raise TypeError
  | Continuous a =>
      match a !! i with
      | Some x => Ok x
      | None => Raise IndexError
      end
  | DiscreteNumpy _ => Raise IndexError
  end.

(** Lane objects and their geometry belong to the road subsystem. *)
Class LaneGeometry : Type := {
  Lane : Type;
  local_coordinates : Lane -> Position -> Q * Q;
  distance_with_heading : Lane -> Position -> Q -> Q
}.

Section DataModel.
Context `{LaneGeometry}.

(** [graph] is a dict of dicts of lists of lanes; [items()] iterates in
    insertion order. *)
Record RoadNetwork : Type := {
  graph : list (Node * list (Node * list Lane))
}.

Record Road : Type := {
  network : RoadNetwork
}.

(** [target_lane_index] is [Some] exactly for a [ControlledVehicle]. *)
Record Vehicle : Type := {
  position : Position;
  heading : Q;
  speed : Q;
  lane_index : LaneIndex;
  target_lane_index : option LaneIndex;
  crashed : bool;
  on_road : bool;
  lane : Lane;
  vehicle_road : Road
}.

(** The attributes of the environment object [self]. *)
Record Env : Type := {
  config : Config;
  road : Road;
  vehicle : Vehicle;
  time : Q;
  previous_steering : Q;
  previous_acceleration : Q
}.

Definition set_previous_steering (x : Q) (env : Env) : Env :=
  {| config := config env; road := road env; vehicle := vehicle env;
     time := time env; previous_steering := x;
     previous_acceleration := previous_acceleration env |}.

Definition set_previous_acceleration (x : Q) (env : Env) : Env :=
  {| config := config env; road := road env; vehicle := vehicle env;
     time := time env; previous_steering := previous_steering env;
     previous_acceleration := x |}.

(** Methods of [self]: a result and the environment after the call. *)
Definition M (A : Type) : Type := Env -> Res A * Env.

#[export] Instance M_ret : MRet M := fun A a env => (Ok a, env).
#[export] Instance M_bind : MBind M := fun A B f m env =>
  match m env with
  | (Ok a, env') => f a env'
  | (Raise e, env') => (Raise e, env')
  end.

Definition get_env : M Env := fun env => (Ok env, env).
Definition modify_env (f : Env -> Env) : M unit := fun env => (Ok tt, f env).
Definition lift {A : Type} (r : Res A) : M A := fun env => (r, env).

End DataModel.

(** What the environment consumes from the rest of the package. *)
Class Collaborators `{LaneGeometry} : Type := {
  (** [RoadNetwork.all_side_lanes] *)
  all_side_lanes : RoadNetwork -> LaneIndex -> list LaneIndex;
  (** [np.cos] *)
  np_cos : Q -> Q;
  (** [AbstractEnv.default_config()] *)
  abstract_default_config : Config;
  (** road construction and random vehicle placement, which draw from
      [np_random] and the vehicle classes *)
  create_road : M unit;
  create_vehicles : M unit
}.

(** [sum(self.config.get(name, 0) * reward for name, reward in rewards.items())],
    the expression shared by both [_reward] methods; [acc] is the running
    total, [0] at the start. *)
Fixpoint weighted_sum (cfg : Config) (items : Components) (acc : Q) : Res Q :=
  match items with
  | [] => Ok acc
  | (name, reward) :: rest =>
      w ← as_number (dict_get cfg name (VNum 0));
      weighted_sum cfg rest (acc + w * reward)%Q
  end.

(** The lane number read by [_rewards]: the target lane of a
    [ControlledVehicle], the current lane of any other vehicle. *)
Definition rewarded_lane `{LaneGeometry} (v : Vehicle) : Z :=
  match target_lane_index v with
  | Some t => t.2
  | None => (lane_index v).2
  end.

Module HighwayEnv.
Section HighwayEnv.
Context `{Collaborators}.

Definition default_config : Config :=
  dict_update abstract_default_config
    [ ("observation", VDict [("type", "Kinematics")]);
      ("action", VDict [("type", "DiscreteMetaAction")]);
      ("lanes_count", VNum 4);
      ("vehicles_count", VNum 50);
      ("controlled_vehicles", VNum 1);
      ("initial_lane_id", VNone);
      ("duration", VNum 40);
      ("ego_spacing", VNum 2);
      ("vehicles_density", VNum 1);
      ("collision_reward", VNum (-1));
      ("right_lane_reward", VNum (1 # 10));
      ("high_speed_reward", VNum (4 # 10));
      ("lane_change_reward", VNum 0);
      ("reward_speed_range", VList [20; 30]%Q);
      ("normalize_reward", VBool true);
      ("offroad_terminal", VBool false) ].

Definition _create_road : M unit := create_road.
Definition _create_vehicles : M unit := create_vehicles.

Definition _reset : M unit :=
  _create_road ;; _create_vehicles.

Definition _rewards (env : Env) (action : Action) : Res Components :=
  let v := vehicle env in
  let neighbours := all_side_lanes (network (road env)) (lane_index v) in
  let lane_number := rewarded_lane v in
  let forward_speed := (speed v * np_cos (heading v))%Q in
  range ← getitem (config env) "reward_speed_range" ≫= as_interval;
  let scaled_speed := utils.lmap forward_speed range (0, 1)%Q in
  right_lane ← true_div lane_number (Z.max (Z.of_nat (length neighbours) - 1) 1);
  mret [ ("collision_reward", float_of_bool (crashed v));
         ("right_lane_reward", right_lane);
         ("high_speed_reward", np_clip scaled_speed 0 1);
         ("on_road_reward", float_of_bool (on_road v)) ].

(** The bounds handed to [utils.lmap] when normalization is on: the three
    entries are looked up, then used in arithmetic. *)
Definition normalization_range (cfg : Config) : Res (Q * Q) :=
  collision ← getitem cfg "collision_reward";
  high_speed ← getitem cfg "high_speed_reward";
  right_lane ← getitem cfg "right_lane_reward";
  hs ← as_number high_speed;
  rl ← as_number right_lane;
  lo ← as_number collision;
  mret (lo, hs + rl)%Q.

(** [_reward] up to, and excluding, the multiplication by
    [rewards['on_road_reward']]. *)
Definition reward_before_gate (cfg : Config) (rewards : Components) : Res Q :=
  reward ← weighted_sum cfg rewards 0;
  normalize ← getitem cfg "normalize_reward";
  if truthy normalize then
    range ← normalization_range cfg;
    mret (utils.lmap reward range (0, 1)%Q)
  else mret reward.

Definition _reward (env : Env) (action : Action) : Res Q :=
  rewards ← _rewards env action;
  reward ← reward_before_gate (config env) rewards;
  gate ← components_getitem rewards "on_road_reward";
  mret (reward * gate)%Q.

(** [crashed or (config["offroad_terminal"] and not on_road)], as a truth
    value; the lookup happens only when [crashed] is false. *)
Definition _is_terminated (env : Env) : Res bool :=
  if crashed (vehicle env) then Ok true
  else
    offroad ← getitem (config env) "offroad_terminal";
    if truthy offroad then Ok (negb (on_road (vehicle env)))
    else Ok false.

Definition _is_truncated (env : Env) : Res bool :=
  duration ← config_number (config env) "duration";
  mret (Qle_bool duration (time env)).

End HighwayEnv.
End HighwayEnv.

Module DevHighway.
Section DevHighway.
Context `{Collaborators}.

Definition default_config : Config :=
  dict_update HighwayEnv.default_config
    [ ("action", VDict [("type", "ContinuousAction")]);
      ("simulation_frequency", VNum 15);
      ("policy_frequency", VNum 15);
      ("lanes_count", VNum 3);
      ("vehicles_count", VNum 50);
      ("duration", VNum 30);
      ("ego_spacing", VNum 2);
      ("lane_centering_cost", VNum 4);
      ("lane_centering_reward", VNum (1 # 100));
      ("abrupt_steering_penalty", VNum (19 # 1000));
      ("abrupt_acceleration_penalty", VNum (1 # 1000));
      ("right_lane_reward", VNum (1 # 10));
      ("high_speed_reward", VNum (35 # 100));
      ("offroad_terminal", VBool false) ].

Definition _rewards (action : Action) : M Components :=
  env ← get_env;
  let v := vehicle env in
  let cfg := config env in
  let neighbours := all_side_lanes (network (road env)) (lane_index v) in
  let lane_number := rewarded_lane v in
  let forward_speed := (speed v * np_cos (heading v))%Q in
  range ← lift (getitem cfg "reward_speed_range" ≫= as_interval);
  let scaled_speed := utils.lmap forward_speed range (0, 1)%Q in
  let lateral := (local_coordinates (lane v) (position v)).2 in
  steering_weight ← lift (getitem cfg "abrupt_steering_penalty");
  steering ← lift (action_item action 1);
  steering_weight ← lift (as_number steering_weight);
  let steering_change_penalty :=
    (steering_weight * Qabs (steering - previous_steering env))%Q in
  modify_env (set_previous_steering steering) ;;
  env' ← get_env;
  acceleration_weight ← lift (getitem cfg "abrupt_acceleration_penalty");
  acceleration ← lift (action_item action 0);
  acceleration_weight ← lift (as_number acceleration_weight);
  let acceleration_change_penalty :=
    (acceleration_weight * Qabs (acceleration - previous_acceleration env'))%Q in
  modify_env (set_previous_acceleration acceleration) ;;
  right_lane ← lift (true_div lane_number
                       (Z.max (Z.of_nat (length neighbours) - 1) 1));
  cost ← lift (config_number cfg "lane_centering_cost");
  mret [ ("collision_reward", if crashed v then (-1)%Q else 0%Q);
         ("right_lane_reward", right_lane);
         ("high_speed_reward", np_clip scaled_speed 0 1);
         ("on_road_reward", float_of_bool (on_road v));
         ("lane_centering_reward", (1 / (1 + cost * lateral ^ 2))%Q);
         ("abrupt_steering_penalty", (- steering_change_penalty)%Q);
         ("abrupt_acceleration_penalty", (- acceleration_change_penalty)%Q) ].

(** The bounds handed to [utils.lmap] when normalization is on: the six
    entries are looked up, then used in arithmetic. *)
Definition normalization_range (cfg : Config) : Res (Q * Q) :=
  collision ← getitem cfg "collision_reward";
  high_speed ← getitem cfg "high_speed_reward";
  right_lane ← getitem cfg "right_lane_reward";
  lane_centering ← getitem cfg "lane_centering_reward";
  steering ← getitem cfg "abrupt_steering_penalty";
  acceleration ← getitem cfg "abrupt_acceleration_penalty";
  hs ← as_number high_speed;
  rl ← as_number right_lane;
  lc ← as_number lane_centering;
  st ← as_number steering;
  ac ← as_number acceleration;
  lo ← as_number collision;
  mret (lo, hs + rl + lc + st + ac)%Q.

(** [_reward] up to, and excluding, the multiplication by
    [rewards['on_road_reward']]. *)
Definition reward_before_gate (cfg : Config) (rewards : Components) : Res Q :=
  reward ← weighted_sum cfg rewards 0;
  normalize ← getitem cfg "normalize_reward";
  if truthy normalize then
    range ← normalization_range cfg;
    mret (utils.lmap reward range (0, 1)%Q)
  else mret reward.

Definition _reward (action : Action) : M Q :=
  rewards ← _rewards action;
  env ← get_env;
  reward ← lift (reward_before_gate (config env) rewards);
  gate ← lift (components_getitem rewards "on_road_reward");
  mret (reward * gate)%Q.

(** The two lists built by the loops of [lane_distance]; [_id] is the
    counter of [enumerate]. *)
Fixpoint lanes_loop (vehicle : Vehicle) (_from _to : Node) (_id : nat)
    (lanes : list Lane) (acc : list LaneIndex * list Q)
  : list LaneIndex * list Q :=
  match lanes with
  | [] => acc
  | l :: rest =>
      let distances :=
        acc.2 ++ [distance_with_heading l (position vehicle) (heading vehicle)] in
      let indexes := acc.1 ++ [(_from, _to, Z.of_nat _id)] in
      lanes_loop vehicle _from _to (S _id) rest (indexes, distances)
  end.

Fixpoint to_loop (vehicle : Vehicle) (_from : Node)
    (to_dict : list (Node * list Lane)) (acc : list LaneIndex * list Q)
  : list LaneIndex * list Q :=
  match to_dict with
  | [] => acc
  | (_to, lanes) :: rest =>
      to_loop vehicle _from rest (lanes_loop vehicle _from _to 0 lanes acc)
  end.

Fixpoint from_loop (vehicle : Vehicle)
    (items : list (Node * list (Node * list Lane)))
    (acc : list LaneIndex * list Q) : list LaneIndex * list Q :=
  match items with
  | [] => acc
  | (_from, to_dict) :: rest =>
      from_loop vehicle rest (to_loop vehicle _from to_dict acc)
  end.

(** The locals [indexes] and [distances] when the loops are done. *)
Definition lane_distance_locals (vehicle : Vehicle) : list LaneIndex * list Q :=
  from_loop vehicle (graph (network (vehicle_road vehicle))) ([], []).

(** [return distances]. *)
Definition lane_distance (vehicle : Vehicle) : list Q :=
  (lane_distance_locals vehicle).2.

Definition _reset : M unit :=
  HighwayEnv._reset ;;
  modify_env (set_previous_steering 0) ;;
  modify_env (set_previous_acceleration 0).

End DevHighway.
End DevHighway.

(** The dictionary the extended [_rewards] returns once every lookup has
    succeeded, in terms of the values looked up. *)
Definition dev_components `{Collaborators} (env : Env) (range : Q * Q)
    (ws steering wa acceleration cost : Q) : Components :=
  let v := vehicle env in
  let count := Z.of_nat (length
    (all_side_lanes (network (road env)) (lane_index v))) in
  [ ("collision_reward", if crashed v then (-1)%Q else 0%Q);
    ("right_lane_reward",
      (inject_Z (rewarded_lane v) / inject_Z (Z.max (count - 1) 1))%Q);
    ("high_speed_reward",
      np_clip (utils.lmap (speed v * np_cos (heading v)) range (0, 1)%Q) 0 1);
    ("on_road_reward", float_of_bool (on_road v));
    ("lane_centering_reward",
      (1 / (1 + cost * (local_coordinates (lane v) (position v)).2 ^ 2))%Q);
    ("abrupt_steering_penalty",
      (- (ws * Qabs (steering - previous_steering env)))%Q);
    ("abrupt_acceleration_penalty",
      (- (wa * Qabs (acceleration - previous_acceleration env)))%Q) ].

(** The number of lane segments of a network graph. *)
Definition lane_segments `{LaneGeometry} (net : RoadNetwork) : nat :=
  sum_list (map (fun from_item =>
    sum_list (map (fun to_item => length to_item.2) from_item.2)) (graph net)).

(** ** The specification's wording of the normalization *)

(** The linear remap of [v] from the range [[lo, hi]] to [[0, 1]]. *)
Definition linear_remap (v lo hi : Q) : Q := ((v - lo) / (hi - lo))%Q.

(** The same environment with the ego vehicle's [crashed] flag set to [b]. *)
Definition set_crashed `{LaneGeometry} (b : bool) (env : Env) : Env :=
  let v := vehicle env in
  {| config := config env; road := road env;
     vehicle := {| position := position v; heading := heading v;
                   speed := speed v; lane_index := lane_index v;
                   target_lane_index := target_lane_index v;
                   crashed := b; on_road := on_road v; lane := lane v;
                   vehicle_road := vehicle_road v |};
     time := time env; previous_steering := previous_steering env;
     previous_acceleration := previous_acceleration env |}.

(** Two results agree: the same exception, or equal numbers. *)
Definition res_equiv (a b : Res Q) : Prop :=
  match a, b with
  | Ok x, Ok y => (x == y)%Q
  | Raise e, Raise e' => e = e'
  | _, _ => False
  end.

(** The binding of [k] that [dict_update] leaves behind: the last one. *)
Fixpoint last_binding (items : list (string * Value)) (k : string) : option Value :=
  match items with
  | [] => None
  | (k', v) :: rest =>
      match last_binding rest k with
      | Some v' => Some v'
      | None => if String.eqb k' k then Some v else None
      end
  end.

(** ** A concrete scenario

    A straight two-lane road from node "0" to node "1", lanes 4 units wide,
    and an ego vehicle driving along the first lane.  A lane is given by the
    lateral position of its centre line. *)
Module Scenario.

Definition geometry : LaneGeometry :=
  {| Lane := Q;
     local_coordinates := fun centre p => (p.1, p.2 - centre)%Q;
     distance_with_heading := fun centre p _ => Qabs (p.2 - centre) |}.
#[local] Existing Instance geometry.

Definition two_lanes : @RoadNetwork geometry :=
  {| graph := [("0", [("1", [0%Q; 4%Q])])] |}.

Definition one_lane : @RoadNetwork geometry :=
  {| graph := [("0", [("1", [0%Q])])] |}.

Definition lanes_between (net : @RoadNetwork geometry) (_from _to : Node) : list Q :=
  match list_find (fun item => bool_decide (item.1 = _from)) (graph net) with
  | Some (_, (_, to_dict)) =>
      match list_find (fun item => bool_decide (item.1 = _to)) to_dict with
      | Some (_, (_, lanes)) => lanes
      | None => []
      end
  | None => []
  end.

Definition set_road (r : @Road geometry) (env : @Env geometry) : @Env geometry :=
  {| config := config env; road := r; vehicle := vehicle env;
     time := time env; previous_steering := previous_steering env;
     previous_acceleration := previous_acceleration env |}.

Definition set_vehicle (v : @Vehicle geometry) (env : @Env geometry) : @Env geometry :=
  {| config := config env; road := road env; vehicle := v;
     time := time env; previous_steering := previous_steering env;
     previous_acceleration := previous_acceleration env |}.

Definition ego (is_crashed is_on_road : bool) : @Vehicle geometry :=
  {| position := (10, 1 # 2)%Q; heading := 0%Q; speed := 25%Q;
     lane_index := ("0", "1", 0%Z);
     target_lane_index := Some ("0", "1", 1%Z);
     crashed := is_crashed; on_road := is_on_road;
     lane := 0%Q;
     vehicle_road := {| network := two_lanes |} |}.

(** [np_cos] is exact at heading [0], the only heading used here. *)
Definition collaborators : @Collaborators geometry :=
  {| all_side_lanes := fun net idx =>
       imap (fun i _ => (idx.1.1, idx.1.2, Z.of_nat i))
            (lanes_between net idx.1.1 idx.1.2);
     np_cos := fun h => (1 - h * h / 2)%Q;
     abstract_default_config :=
       list_to_map [ ("simulation_frequency", VNum 15);
                     ("policy_frequency", VNum 1);
                     ("show_trajectories", VBool false) ];
     create_road := modify_env (set_road {| network := two_lanes |});
     create_vehicles := modify_env (set_vehicle (ego false true)) |}.

Definition env (cfg : Config) (v : @Vehicle geometry) : @Env geometry :=
  {| config := cfg; road := vehicle_road v; vehicle := v; time := 0%Q;
     previous_steering := (3 # 10)%Q; previous_acceleration := (-1 # 5)%Q |}.

Definition base_config : Config := @HighwayEnv.default_config geometry collaborators.
Definition dev_config : Config := @DevHighway.default_config geometry collaborators.




(** Acceleration 0.1 and steering 0.5, then acceleration 0 and steering 0.5. *)
Definition first_action : Action := Continuous [1 # 10; 1 # 2]%Q.
Definition second_action : Action := Continuous [0; 1 # 2]%Q.

Definition reset (e : @Env geometry) : @Env geometry :=
  (@DevHighway._reset geometry collaborators e).2.

Definition rewards_state (action : Action) (e : @Env geometry) : @Env geometry :=
  (@DevHighway._rewards geometry collaborators action e).2.

End Scenario.

(** ** Scenario construction in detail

    [Collaborators] keeps [_create_road] and [_create_vehicles] opaque.  Here
    they are followed statement by statement over the part of [self] they
    touch.  The vehicle classes, the random generator, [near_split] and
    [class_from_path] stay parameters. *)

(** What scenario construction consumes from the rest of the package. *)
Class VehicleFactory `{LaneGeometry} : Type := {
  (** the state of [np_random] *)
  Rng : Type;
  (** a vehicle class, as [utils.class_from_path] returns it *)
  VehicleClass : Type;
  class_from_path : Value -> Res VehicleClass;
  (** [near_split(x, num_bins=n)]: a list of bin sizes, or [None] *)
  near_split : Value -> Value -> Res (option (list Z));
  (** [RoadNetwork.straight_road_network(lanes, speed_limit=...)] *)
  straight_road_network : Value -> Q -> Res RoadNetwork;
  (** [Vehicle.create_random(road, speed=..., lane_id=..., spacing=...)];
      the road is its network, the vehicles on it and its generator *)
  create_random :
    RoadNetwork -> list Vehicle -> Rng -> Q -> Value -> Value -> Res (Vehicle * Rng);
  (** [self.action_type.vehicle_class(road, position, heading, speed)] *)
  vehicle_class : RoadNetwork -> Position -> Q -> Q -> Vehicle;
  (** [other_vehicles_type.create_random(road, spacing=...)] *)
  create_random_other :
    VehicleClass -> RoadNetwork -> list Vehicle -> Rng -> Q -> Res (Vehicle * Rng);
  (** [vehicle.randomize_behavior()] *)
  randomize_behavior : Vehicle -> Rng -> Vehicle * Rng;
  (** the value of [check_collisions] on a vehicle just constructed *)
  constructed_check_collisions : bool
}.

Section BuilderModel.
Context `{VehicleFactory}.

(** A vehicle object: [ident] stands for the identity of the Python object,
    which is what [vehicle not in self.controlled_vehicles] compares. *)
Record RoadObject : Type := {
  ident : nat;
  body : Vehicle;
  check_collisions : bool
}.

(** The attributes of [self] that scenario construction reads and writes;
    [fresh] is the identity the next constructed object gets. *)
Record Site : Type := {
  site_config : Config;
  site_network : RoadNetwork;
  record_history : Value;
  road_vehicles : list RoadObject;
  controlled_vehicles : list RoadObject;
  np_random : Rng;
  fresh : nat
}.

Definition B (A : Type) : Type := Site -> Res A * Site.

#[export] Instance B_ret : MRet B := fun A a s => (Ok a, s).
#[export] Instance B_bind : MBind B := fun A B f m s =>
  match m s with
  | (Ok a, s') => f a s'
  | (Raise e, s') => (Raise e, s')
  end.

Definition get_site : B Site := fun s => (Ok s, s).
Definition modify_site (f : Site -> Site) : B unit := fun s => (Ok tt, f s).
Definition lift_site {A : Type} (r : Res A) : B A := fun s => (r, s).

(** [self.road = Road(network=..., np_random=self.np_random, record_history=...)]:
    the new road has no vehicles. *)
Definition set_road (net : RoadNetwork) (history : Value) (s : Site) : Site :=
  {| site_config := site_config s; site_network := net;
     record_history := history; road_vehicles := [];
     controlled_vehicles := controlled_vehicles s;
     np_random := np_random s; fresh := fresh s |}.

Definition set_np_random (g : Rng) (s : Site) : Site :=
  {| site_config := site_config s; site_network := site_network s;
     record_history := record_history s; road_vehicles := road_vehicles s;
     controlled_vehicles := controlled_vehicles s;
     np_random := g; fresh := fresh s |}.

(** [self.controlled_vehicles = []]. *)
Definition clear_controlled (s : Site) : Site :=
  {| site_config := site_config s; site_network := site_network s;
     record_history := record_history s; road_vehicles := road_vehicles s;
     controlled_vehicles := [];
     np_random := np_random s; fresh := fresh s |}.

(** A vehicle just constructed from [v], appended to [self.controlled_vehicles]
    when [controlled], and to [self.road.vehicles]. *)
Definition append_vehicle (controlled : bool) (v : Vehicle) (s : Site) : Site :=
  let o := {| ident := fresh s; body := v;
              check_collisions := constructed_check_collisions |} in
  {| site_config := site_config s; site_network := site_network s;
     record_history := record_history s;
     road_vehicles := road_vehicles s ++ [o];
     controlled_vehicles :=
       if controlled then controlled_vehicles s ++ [o] else controlled_vehicles s;
     np_random := np_random s; fresh := S (fresh s) |}.

(** [self.road.vehicles = vs]. *)
Definition set_road_vehicles (vs : list RoadObject) (s : Site) : Site :=
  {| site_config := site_config s; site_network := site_network s;
     record_history := record_history s; road_vehicles := vs;
     controlled_vehicles := controlled_vehicles s;
     np_random := np_random s; fresh := fresh s |}.

(** [1 / self.config["vehicles_density"]] on Python numbers. *)
Definition other_spacing (cfg : Config) : Res Q :=
  density ← config_number cfg "vehicles_density";
  if Qeq_bool density 0 then Raise ZeroDivisionError
  else Ok (1 / density)%Q.

End BuilderModel.

Module Builder.
Section Builder.
Context `{VehicleFactory}.

Definition _create_road : B unit :=
  s ← get_site;
  lanes ← lift_site (getitem (site_config s) "lanes_count");
  net ← lift_site (straight_road_network lanes 30);
  history ← lift_site (getitem (site_config s) "show_trajectories");
  modify_site (set_road net history).

(** One pass of the body of the inner loop. *)
Definition create_other (other_vehicles_type : VehicleClass) : B unit :=
  s ← get_site;
  spacing ← lift_site (other_spacing (site_config s));
  made ← lift_site (create_random_other other_vehicles_type (site_network s)
                      (body <$> road_vehicles s) (np_random s) spacing);
  let randomized := randomize_behavior made.1 made.2 in
  modify_site (set_np_random randomized.2) ;;
  modify_site (append_vehicle false randomized.1).

(** [for _ in range(others)]. *)
Fixpoint others_loop (other_vehicles_type : VehicleClass) (others : nat) : B unit :=
  match others with
  | O => mret tt
  | S rest => create_other other_vehicles_type ;; others_loop other_vehicles_type rest
  end.

(** The statements of the outer loop before the inner one. *)
Definition create_ego : B unit :=
  s ← get_site;
  lane_id ← lift_site (getitem (site_config s) "initial_lane_id");
  spacing ← lift_site (getitem (site_config s) "ego_spacing");
  made ← lift_site (create_random (site_network s) (body <$> road_vehicles s)
                      (np_random s) 25 lane_id spacing);
  let vehicle := vehicle_class (site_network s) (position made.1)
                   (heading made.1) (speed made.1) in
  modify_site (set_np_random made.2) ;;
  modify_site (append_vehicle true vehicle).

(** [for others in other_per_controlled]. *)
Fixpoint bins_loop (other_vehicles_type : VehicleClass) (bins : list Z) : B unit :=
  match bins with
  | [] => mret tt
  | others :: rest =>
      create_ego ;;
      others_loop other_vehicles_type (Z.to_nat others) ;;
      bins_loop other_vehicles_type rest
  end.

Definition _create_vehicles : B unit :=
  s ← get_site;
  path ← lift_site (getitem (site_config s) "other_vehicles_type");
  other_vehicles_type ← lift_site (class_from_path path);
  count ← lift_site (getitem (site_config s) "vehicles_count");
  num_bins ← lift_site (getitem (site_config s) "controlled_vehicles");
  other_per_controlled ← lift_site (near_split count num_bins);
  modify_site clear_controlled ;;
  match other_per_controlled with
  | Some bins => bins_loop other_vehicles_type bins
  | None => lift_site (Raise TypeError)
  end.

Definition _reset : B unit :=
  _create_road ;; _create_vehicles.

End Builder.
End Builder.

Module HighwayEnvFast.
Section HighwayEnvFast.
Context `{Collaborators}.

Definition default_config : Config :=
  dict_update HighwayEnv.default_config
    [ ("simulation_frequency", VNum 5);
      ("lanes_count", VNum 3);
      ("vehicles_count", VNum 20);
      ("duration", VNum 30);
      ("ego_spacing", VNum (15 # 10)) ].

End HighwayEnvFast.

Section FastVehicles.
Context `{VehicleFactory}.

(** [vehicle in self.controlled_vehicles], by identity. *)
Definition is_controlled (controlled : list RoadObject) (o : RoadObject) : bool :=
  bool_decide (ident o ∈ ident <$> controlled).

(** The body of the loop: the flag is cleared on an uncontrolled vehicle. *)
Definition disable_check (controlled : list RoadObject) (o : RoadObject) : RoadObject :=
  if is_controlled controlled o then o
  else {| ident := ident o; body := body o; check_collisions := false |}.

Definition _create_vehicles : B unit :=
  Builder._create_vehicles ;;
  s ← get_site;
  modify_site (set_road_vehicles
                 (disable_check (controlled_vehicles s) <$> road_vehicles s)).

End FastVehicles.
End HighwayEnvFast.

Section BuilderInvariant.
Context `{VehicleFactory}.

(** How a step of scenario construction may change [self]: it appends
    [added] to the road, [added_controlled] of them to the controlled
    vehicles, gives them the next identities, and touches nothing else but
    the generator. *)
Record Extends (s s' : Site) (added added_controlled : list RoadObject) : Prop := {
  ext_road : road_vehicles s' = road_vehicles s ++ added;
  ext_controlled : controlled_vehicles s' = controlled_vehicles s ++ added_controlled;
  ext_sublist : added_controlled `sublist_of` added;
  ext_idents : ident <$> added = seq (fresh s) (length added);
  ext_fresh : fresh s' = (fresh s + length added)%nat;
  ext_config : site_config s' = site_config s;
  ext_network : site_network s' = site_network s;
  ext_history : record_history s' = record_history s;
  ext_checks : Forall (fun o => check_collisions o = constructed_check_collisions) added
}.

End BuilderInvariant.

(** ** Lanes of a network, in the order [graph.items()] visits them *)

Definition segment_lanes `{LaneGeometry} (net : RoadNetwork) : list Lane :=
  graph net ≫= fun from_item => from_item.2 ≫= fun to_item => to_item.2.

Definition segment_indexes `{LaneGeometry} (net : RoadNetwork) : list LaneIndex :=
  graph net ≫= fun from_item =>
    from_item.2 ≫= fun to_item =>
      imap (fun i _ => (from_item.1, to_item.1, Z.of_nat i)) to_item.2.

(** ** A concrete vehicle factory

    Vehicles are placed one after the other along the first lane; the
    generator state counts the draws.  [near_split] is the even split of
    [highway_env.utils] on integer arguments, [None] for no bins. *)
Module BuilderScenario.

#[local] Existing Instance Scenario.geometry.

Definition placed (network : @RoadNetwork Scenario.geometry) (slot : nat)
    (speed : Q) (controlled : bool) : @Vehicle Scenario.geometry :=
  {| position := (inject_Z (Z.of_nat slot) * 10, 0)%Q; heading := 0%Q;
     speed := speed;
     lane_index := ("0", "1", 0%Z);
     target_lane_index := if controlled then Some ("0", "1", 0%Z) else None;
     crashed := false; on_road := true;
     lane := 0%Q;
     vehicle_road := {| network := network |} |}.

Definition even_split (x num_bins : Value) : Res (option (list Z)) :=
  match x, num_bins with
  | VNum x, VNum n =>
      if Z.eqb (Qnum n) 0 then Ok None
      else
        let quotient := Z.div (Qnum x) (Qnum n) in
        let remainder := Z.modulo (Qnum x) (Qnum n) in
        Ok (Some (replicate (Z.to_nat remainder) (quotient + 1)%Z
                  ++ replicate (Z.to_nat (Qnum n - remainder)) quotient))
  | _, _ => Raise TypeError
  end.

Definition factory : @VehicleFactory Scenario.geometry :=
  {| Rng := nat;
     VehicleClass := string;
     class_from_path := fun path =>
       match path with VStr name => Ok name | _ => Raise TypeError end;
     near_split := even_split;
     straight_road_network := fun lanes _ =>
       match lanes with
       | VNum n =>
           Ok {| graph := [("0", [("1", (fun i => inject_Z (Z.of_nat i) * 4)%Q
                                          <$> seq 0 (Z.to_nat (Qnum n)))])] |}
       | _ => Raise TypeError
       end;
     create_random := fun network on_road draws speed _ _ =>
       Ok (placed network (length on_road) speed false, S draws);
     vehicle_class := fun network position heading speed =>
       {| position := position; heading := heading; speed := speed;
          lane_index := ("0", "1", 0%Z);
          target_lane_index := Some ("0", "1", 0%Z);
          crashed := false; on_road := true; lane := 0%Q;
          vehicle_road := {| network := network |} |};
     create_random_other := fun _ network on_road draws _ =>
       Ok (placed network (length on_road) 20 false, S draws);
     randomize_behavior := fun v draws => (v, S draws);
     constructed_check_collisions := true |}.
#[local] Existing Instance factory.

(** Three background vehicles for two controlled ones. *)
Definition scenario_config (density : Q) : Config :=
  <["other_vehicles_type" := VStr "highway_env.vehicle.behavior.IDMVehicle"]>
    (<["vehicles_count" := VNum 3]>
       (<["controlled_vehicles" := VNum 2]>
          (<["vehicles_density" := VNum density]> Scenario.base_config))).

Definition site (density : Q) : @Site _ factory :=
  {| site_config := scenario_config density;
     site_network := Scenario.one_lane;
     record_history := VBool false;
     road_vehicles := [];
     controlled_vehicles := [];
     np_random := 0%nat;
     fresh := 0%nat |}.

End BuilderScenario.

(** * Properties *)

(** ** Auxiliary facts *)

Lemma true_div_floor (n count : Z) :
  true_div n (Z.max (count - 1) 1)
  = Ok (inject_Z n / inject_Z (Z.max (count - 1) 1))%Q.
Proof.
  unfold true_div.
  destruct (Z.eqb_spec (Z.max (count - 1) 1) 0) as [E | _]; [lia | reflexivity].
Qed.

(** The strict lookup [d[k]] of an absent key raises; [d.get(k, 0)] does not. *)
Lemma absent_key_lookups (cfg : Config) (k : string) :
  cfg !! k = None ->
  getitem cfg k = Raise (KeyError k) /\ dict_get cfg k (VNum 0) = VNum 0.
Proof. intros Hk. unfold getitem, dict_get. now rewrite Hk. Qed.

Lemma dict_update_lookup (d : Config) (items : list (string * Value)) (k : string) :
  dict_update d items !! k
  = match last_binding items k with
    | Some v => Some v
    | None => d !! k
    end.
Proof.
  revert d. induction items as [| [k' v] rest IH]; intros d; [reflexivity |].
  change (dict_update d ((k', v) :: rest)) with (dict_update (<[k' := v]> d) rest).
  rewrite IH. simpl.
  destruct (last_binding rest k); [reflexivity |].
  destruct (String.eqb_spec k' k) as [-> | Hne].
  - apply lookup_insert_eq.
  - now apply lookup_insert_ne.
Qed.

(** ** The weighted sum *)

Lemma weighted_sum_acc (cfg : Config) (items : Components) (acc acc' : Q) :
  (acc == acc')%Q ->
  res_equiv (weighted_sum cfg items acc) (weighted_sum cfg items acc').
Proof.
  revert acc acc'. induction items as [| [name reward] rest IH]; intros acc acc' Hacc.
  - exact Hacc.
  - simpl. destruct (as_number (dict_get cfg name (VNum 0))) as [w | e]; simpl.
    + apply IH. now rewrite Hacc.
    + reflexivity.
Qed.

(** C8: in the weighted sum of [_reward], a component whose name has no
    entry in the configuration is looked up with default 0, which raises
    nothing, and the sum is what it is without that component. *)
Theorem absent_weight_contributes_nothing (cfg : Config) (name : string)
    (reward : Q) (before after : Components) (acc : Q) :
  cfg !! name = None ->
  as_number (dict_get cfg name (VNum 0)) = Ok 0%Q /\
  res_equiv (weighted_sum cfg (before ++ (name, reward) :: after) acc)
            (weighted_sum cfg (before ++ after) acc).
Proof.
  intros Habsent.
  assert (Hw : as_number (dict_get cfg name (VNum 0)) = Ok 0%Q).
  { unfold dict_get. now rewrite Habsent. }
  split; [exact Hw |].
  revert acc. induction before as [| [name' reward'] rest IH]; intros acc.
  - simpl. rewrite Hw. simpl. apply weighted_sum_acc. ring.
  - simpl. destruct (as_number (dict_get cfg name' (VNum 0))) as [w | e]; simpl.
    + apply IH.
    + reflexivity.
Qed.

Section Rewards.
Context `{Collaborators}.

(** The base [_rewards] fails only where it reads the speed range. *)
Lemma HighwayEnv_rewards_unfold (env : Env) (action : Action) :
  HighwayEnv._rewards env action =
    match getitem (config env) "reward_speed_range" ≫= as_interval with
    | Ok range =>
        let v := vehicle env in
        let count := Z.of_nat (length
          (all_side_lanes (network (road env)) (lane_index v))) in
        Ok [ ("collision_reward", float_of_bool (crashed v));
             ("right_lane_reward",
               (inject_Z (rewarded_lane v) / inject_Z (Z.max (count - 1) 1))%Q);
             ("high_speed_reward",
               np_clip (utils.lmap (speed v * np_cos (heading v)) range (0, 1)%Q) 0 1);
             ("on_road_reward", float_of_bool (on_road v)) ]
    | Raise e => Raise e
    end.
Proof.
  unfold HighwayEnv._rewards.
  destruct (getitem (config env) "reward_speed_range" ≫= as_interval) as [range | e];
    simpl; [| reflexivity].
  now rewrite true_div_floor.
Qed.

Lemma config_number_inv (cfg : Config) (k : string) (w : Q) :
  config_number cfg k = Ok w ->
  exists v, getitem cfg k = Ok v /\ as_number v = Ok w.
Proof.
  unfold config_number. destruct (getitem cfg k) as [v | e]; simpl; [eauto | discriminate].
Qed.

Lemma DevHighway_rewards_run (env : Env) (action : Action)
    (range : Q * Q) (ws steering wa acceleration : Q) :
  getitem (config env) "reward_speed_range" ≫= as_interval = Ok range ->
  config_number (config env) "abrupt_steering_penalty" = Ok ws ->
  action_item action 1 = Ok steering ->
  config_number (config env) "abrupt_acceleration_penalty" = Ok wa ->
  action_item action 0 = Ok acceleration ->
  DevHighway._rewards action env =
    (match config_number (config env) "lane_centering_cost" with
     | Ok cost => Ok (dev_components env range ws steering wa acceleration cost)
     | Raise e => Raise e
     end,
     set_previous_acceleration acceleration (set_previous_steering steering env)).
Proof.
  intros Hrange (vs & Hvs & Hws)%config_number_inv Hsteer
         (va & Hva & Hwa)%config_number_inv Hacc.
  unfold mbind in Hrange.
  unfold DevHighway._rewards, mbind, M_bind, lift, get_env, modify_env, mret, M_ret.
  simpl. rewrite Hrange, Hvs, Hsteer, Hws. simpl.
  rewrite Hva, Hacc, Hwa, true_div_floor.
  now destruct (config_number (config env) "lane_centering_cost").
Qed.

Lemma config_number_intro (cfg : Config) (k : string) (v : Value) (w : Q) :
  getitem cfg k = Ok v -> as_number v = Ok w -> config_number cfg k = Ok w.
Proof. intros Hv Hw. unfold config_number. now rewrite Hv. Qed.

Lemma getitem_error (cfg : Config) (k : string) (e : PyError) :
  getitem cfg k = Raise e -> e = KeyError k.
Proof. unfold getitem. destruct (cfg !! k); congruence. Qed.

Lemma as_number_error (v : Value) (e : PyError) :
  as_number v = Raise e -> e = TypeError.
Proof. destruct v; simpl; congruence. Qed.

Lemma as_interval_error (v : Value) (e : PyError) :
  as_interval v = Raise e -> e = TypeError \/ e = IndexError.
Proof. destruct v as [| | | | [| lo [| hi l]] |]; simpl; intros [= <-]; auto. Qed.

Lemma action_item_error (action : Action) (i : nat) (e : PyError) :
  action_item action i = Raise e -> e = TypeError \/ e = IndexError.
Proof.
  destruct action as [a | a | a]; simpl; [intros [= <-]; auto | | intros [= <-]; auto].
  destruct (a !! i); intros [= <-]; auto.
Qed.

(** The exceptions of the lookups: none is a [ZeroDivisionError]. *)
Lemma lookup_error_not_division (e : PyError) :
  (exists k, e = KeyError k) \/ e = TypeError \/ e = IndexError ->
  e <> ZeroDivisionError.
Proof. intros [[k ->] | [-> | ->]]; discriminate. Qed.

(** Closes the branch of a case analysis in which the lookup [H] raised. *)
Ltac raises H :=
  left; eexists; split; [reflexivity |];
  apply lookup_error_not_division;
  first [ apply getitem_error in H; eauto
        | apply as_number_error in H; eauto
        | apply as_interval_error in H; tauto
        | apply action_item_error in H; tauto ].

(** A call of the extended [_rewards] either raises one of the lookup
    errors or has passed every lookup and returns [dev_components]. *)
Lemma DevHighway_rewards_cases (env : Env) (action : Action) :
  (exists e, (DevHighway._rewards action env).1 = Raise e /\
             e <> ZeroDivisionError) \/
  (exists range ws steering wa acceleration cost,
    getitem (config env) "reward_speed_range" ≫= as_interval = Ok range /\
    config_number (config env) "abrupt_steering_penalty" = Ok ws /\
    action_item action 1 = Ok steering /\
    config_number (config env) "abrupt_acceleration_penalty" = Ok wa /\
    action_item action 0 = Ok acceleration /\
    config_number (config env) "lane_centering_cost" = Ok cost /\
    (DevHighway._rewards action env).1
    = Ok (dev_components env range ws steering wa acceleration cost)).
Proof.
  unfold DevHighway._rewards, config_number, mbind, M_bind, lift, get_env,
    modify_env, mret, M_ret.
  simpl. rewrite true_div_floor.
  destruct (getitem (config env) "reward_speed_range") as [vr | e] eqn:Hvr; simpl;
    [| raises Hvr].
  destruct (as_interval vr) as [range | e] eqn:Hrange; simpl; [| raises Hrange].
  destruct (getitem (config env) "abrupt_steering_penalty") as [vs | e] eqn:Hvs; simpl;
    [| raises Hvs].
  destruct (action_item action 1) as [steering | e] eqn:Hsteer; simpl; [| raises Hsteer].
  destruct (as_number vs) as [ws | e] eqn:Hws; simpl; [| raises Hws].
  destruct (getitem (config env) "abrupt_acceleration_penalty") as [va | e] eqn:Hva; simpl;
    [| raises Hva].
  destruct (action_item action 0) as [acceleration | e] eqn:Hacc; simpl; [| raises Hacc].
  destruct (as_number va) as [wa | e] eqn:Hwa; simpl; [| raises Hwa].
  destruct (getitem (config env) "lane_centering_cost") as [vc | e] eqn:Hvc; simpl;
    [| raises Hvc].
  destruct (as_number vc) as [cost | e] eqn:Hcost; simpl; [| raises Hcost].
  right. exists range, ws, steering, wa, acceleration, cost.
  repeat split; reflexivity.
Qed.

Lemma DevHighway_rewards_ok (env : Env) (action : Action) (comps : Components) :
  (DevHighway._rewards action env).1 = Ok comps ->
  exists range ws steering wa acceleration cost,
    getitem (config env) "reward_speed_range" ≫= as_interval = Ok range /\
    config_number (config env) "abrupt_steering_penalty" = Ok ws /\
    action_item action 1 = Ok steering /\
    config_number (config env) "abrupt_acceleration_penalty" = Ok wa /\
    action_item action 0 = Ok acceleration /\
    config_number (config env) "lane_centering_cost" = Ok cost /\
    comps = dev_components env range ws steering wa acceleration cost.
Proof.
  intros Hrun.
  destruct (DevHighway_rewards_cases env action)
    as [(e & He & _) | (range & ws & st & wa & ac & cost & H1 & H2 & H3 & H4 & H5 & H6 & H7)];
    [congruence |].
  exists range, ws, st, wa, ac, cost. repeat split; try assumption. congruence.
Qed.

(** The aggregate adds nothing to what [_rewards] does to [self]. *)
Lemma DevHighway_reward_state (env : Env) (action : Action) :
  (DevHighway._reward action env).2 = (DevHighway._rewards action env).2.
Proof.
  unfold DevHighway._reward, mbind, M_bind, lift, get_env, mret, M_ret.
  destruct (DevHighway._rewards action env) as [[comps | e] env']; simpl; [| reflexivity].
  destruct (DevHighway.reward_before_gate (config env') comps); simpl;
    [| reflexivity].
  now destruct (components_getitem comps "on_road_reward").
Qed.

(** ** The collision component *)

(** C6: the base policy's [_rewards] gives the collision component as 1.0
    when the vehicle is crashed and 0.0 otherwise; the extended policy's
    gives -1.0 when crashed and 0 otherwise. *)
Theorem collision_component_conventions (env : Env) (action : Action) :
  (forall comps, HighwayEnv._rewards env action = Ok comps ->
     components_getitem comps "collision_reward"
     = Ok (if crashed (vehicle env) then 1%Q else 0%Q)) /\
  (forall comps, (DevHighway._rewards action env).1 = Ok comps ->
     components_getitem comps "collision_reward"
     = Ok (if crashed (vehicle env) then (-1)%Q else 0%Q)).
Proof.
  split; intros comps Hrun.
  - rewrite HighwayEnv_rewards_unfold in Hrun.
    destruct (getitem (config env) "reward_speed_range" ≫= as_interval);
      [| discriminate].
    injection Hrun as <-. reflexivity.
  - apply DevHighway_rewards_ok in Hrun
      as (range & ws & st & wa & ac & cost & _ & _ & _ & _ & _ & _ & ->).
    reflexivity.
Qed.

(** ** The right-lane component *)

Lemma right_lane_ratio_bounds (n count : Z) :
  (0 <= n < count)%Z ->
  (0 <= inject_Z n / inject_Z (Z.max (count - 1) 1) <= 1)%Q.
Proof.
  intros [Hlo Hhi].
  assert (Hd : (0 < inject_Z (Z.max (count - 1) 1))%Q).
  { change 0%Q with (inject_Z 0). rewrite <- Zlt_Qlt. lia. }
  split.
  - apply Qle_shift_div_l; [exact Hd |].
    rewrite Qmult_0_l. change 0%Q with (inject_Z 0). rewrite <- Zle_Qle. lia.
  - apply Qle_shift_div_r; [exact Hd |].
    rewrite Qmult_1_l. rewrite <- Zle_Qle. lia.
Qed.




(** ** Termination *)

(** C7: [_is_terminated] is true exactly when the vehicle is crashed, or
    [offroad_terminal] is configured true and the vehicle is not on the
    road; a crashed vehicle terminates whatever the configuration and
    [on_road] are. *)
Theorem is_terminated_spec (env : Env) :
  (forall offroad, config env !! "offroad_terminal" = Some offroad ->
     HighwayEnv._is_terminated env
     = Ok (crashed (vehicle env)
           || (truthy offroad && negb (on_road (vehicle env))))) /\
  (crashed (vehicle env) = true -> HighwayEnv._is_terminated env = Ok true).
Proof.
  unfold HighwayEnv._is_terminated, getitem. split.
  - intros offroad ->. simpl.
    now destruct (crashed (vehicle env)), (truthy offroad).
  - now intros ->.
Qed.

(** ** The on-road gate *)

Lemma gate_closed (reward gate : Q) : (gate == 0 -> reward * gate == 0)%Q.
Proof. intros ->. apply Qmult_0_r. Qed.

(** C4: when the vehicle is off the road, the reward returned by
    [_reward] is 0 in both policies, whatever the other components and
    whether or not normalization is enabled. *)
Theorem off_road_reward_zero (env : Env) (action : Action) :
  on_road (vehicle env) = false ->
  (forall r, HighwayEnv._reward env action = Ok r -> (r == 0)%Q) /\
  (forall r, (DevHighway._reward action env).1 = Ok r -> (r == 0)%Q).
Proof.
  intros Hoff. split; intros r.
  - unfold HighwayEnv._reward. rewrite HighwayEnv_rewards_unfold.
    destruct (getitem (config env) "reward_speed_range" ≫= as_interval);
      simpl; [| discriminate].
    destruct (HighwayEnv.reward_before_gate _ _) as [reward | e];
      simpl; [| discriminate].
    intros [= <-]. apply gate_closed. now rewrite Hoff.
  - unfold DevHighway._reward, mbind, M_bind, lift, get_env, mret, M_ret.
    destruct (DevHighway._rewards action env) as [[comps | e] env'] eqn:Hrun;
      simpl; [| discriminate].
    assert (Hcomps : (DevHighway._rewards action env).1 = Ok comps)
      by now rewrite Hrun.
    apply DevHighway_rewards_ok in Hcomps
      as (range & ws & st & wa & ac & cost & _ & _ & _ & _ & _ & _ & ->).
    destruct (DevHighway.reward_before_gate _ _) as [reward | e];
      simpl; [| discriminate].
    intros [= <-]. apply gate_closed. now rewrite Hoff.
Qed.

(** ** Episode state *)

(** C10: a call of the extended [_rewards] that gets as far as the two
    assignments leaves [previous_steering] at the second action component
    and [previous_acceleration] at the first, whatever [crashed] and
    [on_road] are, and changes nothing else of the environment; [_reward]
    adds no further change. *)
Theorem rewards_updates_previous_controls (env : Env) (action : Action)
    (range : Q * Q) (ws steering wa acceleration : Q) :
  getitem (config env) "reward_speed_range" ≫= as_interval = Ok range ->
  config_number (config env) "abrupt_steering_penalty" = Ok ws ->
  action_item action 1 = Ok steering ->
  config_number (config env) "abrupt_acceleration_penalty" = Ok wa ->
  action_item action 0 = Ok acceleration ->
  let env' := (DevHighway._rewards action env).2 in
  previous_steering env' = steering /\
  previous_acceleration env' = acceleration /\
  env' = {| config := config env; road := road env; vehicle := vehicle env;
            time := time env; previous_steering := steering;
            previous_acceleration := acceleration |} /\
  (DevHighway._reward action env).2 = env'.
Proof.
  intros Hrange Hws Hsteer Hwa Hacc env'.
  assert (Henv : env' = set_previous_acceleration acceleration
                          (set_previous_steering steering env)).
  { unfold env'.
    now rewrite (DevHighway_rewards_run env action range ws steering wa acceleration). }
  rewrite DevHighway_reward_state. fold env'. rewrite Henv.
  repeat split; reflexivity.
Qed.

(** Every call that returns has made both assignments. *)
Corollary returned_rewards_update_previous_controls
    (env : Env) (action : Action) (comps : Components) :
  (DevHighway._rewards action env).1 = Ok comps ->
  exists steering acceleration,
    action_item action 1 = Ok steering /\
    action_item action 0 = Ok acceleration /\
    (DevHighway._rewards action env).2
    = set_previous_acceleration acceleration (set_previous_steering steering env).
Proof.
  intros (range & ws & st & wa & ac & cost & Hr & Hs & Hst & Ha & Hac & _ & _)
    %DevHighway_rewards_ok.
  exists st, ac. repeat split; try assumption.
  now rewrite (DevHighway_rewards_run env action range ws st wa ac).
Qed.

(** [_reset] ends with both previous controls at 0. *)
Lemma DevHighway_reset_state (env env0 : Env) :
  DevHighway._reset env = (Ok (), env0) ->
  previous_steering env0 = 0%Q /\ previous_acceleration env0 = 0%Q.
Proof.
  unfold DevHighway._reset, mbind, M_bind, modify_env.
  destruct (HighwayEnv._reset env) as [[[] | e] env1]; [| discriminate].
  intros [= <-]. split; reflexivity.
Qed.

(** C2: after a reset, a call of the extended [_rewards] whose second
    action component is 0.5 gives the steering penalty minus the weight
    times 0.5 and leaves [previous_steering] at 0.5; the call that follows,
    again with 0.5, gives a steering penalty of 0.  Between the two calls
    the rest of the environment may change ([env1'] for [env1]), as it does
    when the simulation advances. *)
Theorem steering_penalty_scenario (env env0 env1 env1' env2 : Env)
    (action1 action2 : Action) (steering1 steering2 weight : Q)
    (comps1 comps2 : Components) :
  DevHighway._reset env = (Ok (), env0) ->
  config_number (config env0) "abrupt_steering_penalty" = Ok weight ->
  action_item action1 1 = Ok steering1 -> (steering1 == 1 # 2)%Q ->
  action_item action2 1 = Ok steering2 -> (steering2 == 1 # 2)%Q ->
  DevHighway._rewards action1 env0 = (Ok comps1, env1) ->
  previous_steering env1' = previous_steering env1 ->
  DevHighway._rewards action2 env1' = (Ok comps2, env2) ->
  (exists p1, components_getitem comps1 "abrupt_steering_penalty" = Ok p1 /\
              (p1 == - weight * (1 # 2))%Q) /\
  (previous_steering env1 == 1 # 2)%Q /\
  (exists p2, components_getitem comps2 "abrupt_steering_penalty" = Ok p2 /\
              (p2 == 0)%Q).
Proof.
  intros Hreset Hweight Hst1 Hhalf1 Hst2 Hhalf2 Hrun1 Hkeep Hrun2.
  apply DevHighway_reset_state in Hreset as [Hprev0 _].
  assert (Hc1 : (DevHighway._rewards action1 env0).1 = Ok comps1) by now rewrite Hrun1.
  assert (Hc2 : (DevHighway._rewards action2 env1').1 = Ok comps2) by now rewrite Hrun2.
  destruct (DevHighway_rewards_ok _ _ _ Hc1)
    as (range & ws & st & wa & ac & cost & Hr & Hs & Hst & Ha & Hac & _ & ->).
  assert (Henv1 : env1 = set_previous_acceleration ac (set_previous_steering st env0)).
  { rewrite (DevHighway_rewards_run env0 action1 range ws st wa ac) in Hrun1
      by assumption. congruence. }
  assert (st = steering1) as -> by congruence.
  assert (ws = weight) as -> by congruence.
  destruct (DevHighway_rewards_ok _ _ _ Hc2)
    as (range' & ws' & st' & wa' & ac' & cost' & _ & Hs' & Hst' & _ & _ & _ & ->).
  assert (st' = steering2) as -> by congruence.
  assert (Hprev1 : previous_steering env1 = steering1) by now rewrite Henv1.
  split; [| split].
  - eexists. split; [reflexivity |].
    rewrite Hprev0, Hhalf1.
    setoid_replace (Qabs ((1 # 2) - 0)) with (1 # 2)%Q using relation Qeq
      by reflexivity.
    lra.
  - rewrite Hprev1. exact Hhalf1.
  - eexists. split; [reflexivity |].
    rewrite Hkeep, Hprev1, Hhalf1, Hhalf2.
    setoid_replace (Qabs ((1 # 2) - (1 # 2))) with 0%Q using relation Qeq
      by reflexivity.
    lra.
Qed.

(** ** Normalization *)

Lemma lmap_unit_interval (v lo hi : Q) :
  (utils.lmap v (lo, hi) (0, 1) == linear_remap v lo hi)%Q.
Proof. unfold utils.lmap, linear_remap, Qdiv. simpl. ring. Qed.

Lemma linear_remap_lower (lo hi : Q) : (linear_remap lo lo hi == 0)%Q.
Proof. unfold linear_remap, Qdiv. ring. Qed.

Lemma linear_remap_upper (lo hi : Q) :
  (~ lo == hi -> linear_remap hi lo hi == 1)%Q.
Proof. intros Hne. unfold linear_remap. field. lra. Qed.

Lemma HighwayEnv_normalization_range (cfg : Config) (lo hs rl : Q) :
  config_number cfg "collision_reward" = Ok lo ->
  config_number cfg "high_speed_reward" = Ok hs ->
  config_number cfg "right_lane_reward" = Ok rl ->
  HighwayEnv.normalization_range cfg = Ok (lo, hs + rl)%Q.
Proof.
  intros (vlo & Hvlo & Hlo)%config_number_inv (vhs & Hvhs & Hhs)%config_number_inv
         (vrl & Hvrl & Hrl)%config_number_inv.
  unfold HighwayEnv.normalization_range.
  rewrite Hvlo, Hvhs, Hvrl. simpl. rewrite Hhs, Hrl. simpl. now rewrite Hlo.
Qed.

Lemma DevHighway_normalization_range (cfg : Config) (lo hs rl lc st ac : Q) :
  config_number cfg "collision_reward" = Ok lo ->
  config_number cfg "high_speed_reward" = Ok hs ->
  config_number cfg "right_lane_reward" = Ok rl ->
  config_number cfg "lane_centering_reward" = Ok lc ->
  config_number cfg "abrupt_steering_penalty" = Ok st ->
  config_number cfg "abrupt_acceleration_penalty" = Ok ac ->
  DevHighway.normalization_range cfg = Ok (lo, hs + rl + lc + st + ac)%Q.
Proof.
  intros (vlo & Hvlo & Hlo)%config_number_inv (vhs & Hvhs & Hhs)%config_number_inv
         (vrl & Hvrl & Hrl)%config_number_inv (vlc & Hvlc & Hlc)%config_number_inv
         (vst & Hvst & Hst)%config_number_inv (vac & Hvac & Hac)%config_number_inv.
  unfold DevHighway.normalization_range.
  rewrite Hvlo, Hvhs, Hvrl, Hvlc, Hvst, Hvac. simpl.
  rewrite Hhs, Hrl, Hlc, Hst, Hac. simpl. now rewrite Hlo.
Qed.

(** C3: with normalization enabled, the reward before the on-road gate is
    the linear remap to [0, 1] of the weighted sum, from the range whose
    lower bound is the collision weight and whose upper bound is the sum
    of the high-speed and right-lane weights (base policy), plus the
    lane-centering and the two smoothness-penalty weights (extended
    policy); [_reward] is that value times the on-road component. *)
Theorem normalized_reward_is_remap (env : Env) (action : Action)
    (normalize : Value) (lo hs rl : Q) :
  config env !! "normalize_reward" = Some normalize ->
  truthy normalize = true ->
  config_number (config env) "collision_reward" = Ok lo ->
  config_number (config env) "high_speed_reward" = Ok hs ->
  config_number (config env) "right_lane_reward" = Ok rl ->
  (forall rewards total,
     HighwayEnv._rewards env action = Ok rewards ->
     weighted_sum (config env) rewards 0 = Ok total ->
     exists before r,
       HighwayEnv.reward_before_gate (config env) rewards = Ok before /\
       (before == linear_remap total lo (hs + rl))%Q /\
       HighwayEnv._reward env action = Ok r /\
       (r == before * float_of_bool (on_road (vehicle env)))%Q) /\
  (forall lc st ac rewards total,
     config_number (config env) "lane_centering_reward" = Ok lc ->
     config_number (config env) "abrupt_steering_penalty" = Ok st ->
     config_number (config env) "abrupt_acceleration_penalty" = Ok ac ->
     (DevHighway._rewards action env).1 = Ok rewards ->
     weighted_sum (config env) rewards 0 = Ok total ->
     exists before r,
       DevHighway.reward_before_gate (config env) rewards = Ok before /\
       (before == linear_remap total lo (hs + rl + lc + st + ac))%Q /\
       (DevHighway._reward action env).1 = Ok r /\
       (r == before * float_of_bool (on_road (vehicle env)))%Q).
Proof.
  intros Hnorm Htruthy Hlo Hhs Hrl. split.
  - intros rewards total Hrun Hsum.
    assert (Hbefore : HighwayEnv.reward_before_gate (config env) rewards
                      = Ok (utils.lmap total (lo, hs + rl)%Q (0, 1)%Q)).
    { unfold HighwayEnv.reward_before_gate, getitem.
      rewrite Hsum, Hnorm. simpl.
      now rewrite Htruthy, (HighwayEnv_normalization_range _ lo hs rl). }
    exists (utils.lmap total (lo, hs + rl)%Q (0, 1)%Q).
    exists (utils.lmap total (lo, hs + rl)%Q (0, 1)%Q
            * float_of_bool (on_road (vehicle env)))%Q.
    split; [exact Hbefore |]. split; [apply lmap_unit_interval |].
    split; [| reflexivity].
    unfold HighwayEnv._reward. rewrite Hrun. simpl. rewrite Hbefore. simpl.
    rewrite HighwayEnv_rewards_unfold in Hrun.
    destruct (getitem (config env) "reward_speed_range" ≫= as_interval);
      [| discriminate].
    injection Hrun as <-. reflexivity.
  - intros lc st ac rewards total Hlc Hst Hac Hrun Hsum.
    assert (Hbefore : DevHighway.reward_before_gate (config env) rewards
              = Ok (utils.lmap total (lo, hs + rl + lc + st + ac)%Q (0, 1)%Q)).
    { unfold DevHighway.reward_before_gate, getitem.
      rewrite Hsum, Hnorm. simpl.
      now rewrite Htruthy, (DevHighway_normalization_range _ lo hs rl lc st ac). }
    exists (utils.lmap total (lo, hs + rl + lc + st + ac)%Q (0, 1)%Q).
    exists (utils.lmap total (lo, hs + rl + lc + st + ac)%Q (0, 1)%Q
            * float_of_bool (on_road (vehicle env)))%Q.
    split; [exact Hbefore |]. split; [apply lmap_unit_interval |].
    split; [| reflexivity].
    destruct (DevHighway_rewards_ok _ _ _ Hrun)
      as (range & ws & sv & wa & av & cost & Hr & Hs & Hsv & Ha & Hav & Hcost & ->).
    unfold DevHighway._reward, mbind, M_bind, lift, get_env, mret, M_ret.
    rewrite (DevHighway_rewards_run env action range ws sv wa av) by assumption.
    rewrite Hcost. cbn [config set_previous_acceleration set_previous_steering].
    rewrite Hbefore. reflexivity.
Qed.

(** Under the default configurations [_reward] does return. *)
Lemma HighwayEnv_default_entries :
  let cfg := HighwayEnv.default_config in
  cfg !! "collision_reward" = Some (VNum (-1)) /\
  cfg !! "right_lane_reward" = Some (VNum (1 # 10)) /\
  cfg !! "high_speed_reward" = Some (VNum (4 # 10)) /\
  cfg !! "reward_speed_range" = Some (VList [20; 30]%Q) /\
  cfg !! "normalize_reward" = Some (VBool true) /\
  cfg !! "on_road_reward" = abstract_default_config !! "on_road_reward".
Proof.
  unfold HighwayEnv.default_config.
  rewrite !dict_update_lookup. repeat split; reflexivity.
Qed.

Lemma HighwayEnv_default_reward_returns (env : Env) (action : Action) :
  config env = HighwayEnv.default_config ->
  abstract_default_config !! "on_road_reward" = None ->
  exists r, HighwayEnv._reward env action = Ok r.
Proof.
  intros Hcfg Habs.
  destruct HighwayEnv_default_entries as (Hc & Hr & Hh & Hrange & Hnorm & Ho).
  assert (Hgate : forall c r h o, exists before,
            HighwayEnv.reward_before_gate HighwayEnv.default_config
              [ ("collision_reward", c); ("right_lane_reward", r);
                ("high_speed_reward", h); ("on_road_reward", o) ] = Ok before).
  { intros c r h o.
    unfold HighwayEnv.reward_before_gate, weighted_sum, dict_get, getitem.
    rewrite Hc, Hr, Hh, Ho, Habs, Hnorm.
    cbn [mbind Res_bind as_number default truthy].
    rewrite (HighwayEnv_normalization_range _ (-1)%Q (4 # 10)%Q (1 # 10)%Q).
    - eexists. reflexivity.
    - unfold config_number, getitem. now rewrite Hc.
    - unfold config_number, getitem. now rewrite Hh.
    - unfold config_number, getitem. now rewrite Hr. }
  unfold HighwayEnv._reward. rewrite HighwayEnv_rewards_unfold.
  rewrite Hcfg. unfold getitem at 1. rewrite Hrange.
  cbn [mbind Res_bind as_interval].
  match goal with
  | |- context [HighwayEnv.reward_before_gate _ [(_, ?c); (_, ?r); (_, ?h); (_, ?o)]] =>
      destruct (Hgate c r h o) as [before ->]
  end.
  eexists. reflexivity.
Qed.

(** ** The collision term under the default configuration *)

(** The entries of the extended policy's default configuration that the
    rewards read. *)
Lemma DevHighway_default_entries :
  let cfg := DevHighway.default_config in
  cfg !! "collision_reward" = Some (VNum (-1)) /\
  cfg !! "right_lane_reward" = Some (VNum (1 # 10)) /\
  cfg !! "high_speed_reward" = Some (VNum (35 # 100)) /\
  cfg !! "lane_centering_reward" = Some (VNum (1 # 100)) /\
  cfg !! "abrupt_steering_penalty" = Some (VNum (19 # 1000)) /\
  cfg !! "abrupt_acceleration_penalty" = Some (VNum (1 # 1000)) /\
  cfg !! "lane_centering_cost" = Some (VNum 4) /\
  cfg !! "reward_speed_range" = Some (VList [20; 30]%Q) /\
  cfg !! "normalize_reward" = Some (VBool true) /\
  cfg !! "on_road_reward" = abstract_default_config !! "on_road_reward".
Proof.
  unfold DevHighway.default_config, HighwayEnv.default_config.
  rewrite !dict_update_lookup. repeat split; reflexivity.
Qed.

(** The weighted sum the default configuration of the extended policy
    gives to the seven components. *)
Lemma DevHighway_default_weighted_sum (c r h o l s a : Q) :
  abstract_default_config !! "on_road_reward" = None ->
  weighted_sum DevHighway.default_config
    [ ("collision_reward", c); ("right_lane_reward", r);
      ("high_speed_reward", h); ("on_road_reward", o);
      ("lane_centering_reward", l); ("abrupt_steering_penalty", s);
      ("abrupt_acceleration_penalty", a) ] 0
  = Ok (0 + -1 * c + (1 # 10) * r + (35 # 100) * h + 0 * o
        + (1 # 100) * l + (19 # 1000) * s + (1 # 1000) * a)%Q.
Proof.
  intros Habs.
  destruct DevHighway_default_entries
    as (Hc & Hr & Hh & Hl & Hs & Ha & _ & _ & _ & Ho).
  unfold weighted_sum, dict_get.
  rewrite Hc, Hr, Hh, Hl, Hs, Ha, Ho, Habs. reflexivity.
Qed.

(** Under its default configuration the extended [_reward] returns on
    every action that has two components. *)
Lemma DevHighway_default_reward_returns (env : Env) (action : Action)
    (steering acceleration : Q) :
  config env = DevHighway.default_config ->
  abstract_default_config !! "on_road_reward" = None ->
  action_item action 1 = Ok steering ->
  action_item action 0 = Ok acceleration ->
  exists r, (DevHighway._reward action env).1 = Ok r.
Proof.
  intros Hcfg Habs Hsteer Hacc.
  destruct DevHighway_default_entries
    as (Hc & Hr & Hh & Hl & Hs & Ha & Hk & Hrg & Hnorm & Ho).
  assert (Hrun : DevHighway._rewards action env
    = (Ok (dev_components env (20, 30)%Q (19 # 1000) steering (1 # 1000)
             acceleration 4),
       set_previous_acceleration acceleration (set_previous_steering steering env))).
  { rewrite (DevHighway_rewards_run env action (20, 30)%Q (19 # 1000)%Q steering
               (1 # 1000)%Q acceleration); try assumption;
      rewrite Hcfg; unfold config_number, getitem.
    - now rewrite Hk.
    - now rewrite Hrg.
    - now rewrite Hs.
    - now rewrite Ha. }
  assert (Hgate : exists before,
            DevHighway.reward_before_gate DevHighway.default_config
              (dev_components env (20, 30)%Q (19 # 1000) steering (1 # 1000)
                 acceleration 4) = Ok before).
  { unfold DevHighway.reward_before_gate, dev_components.
    rewrite DevHighway_default_weighted_sum by assumption.
    unfold getitem. rewrite Hnorm.
    cbn [mbind Res_bind truthy].
    rewrite (DevHighway_normalization_range _ (-1)%Q (35 # 100)%Q (1 # 10)%Q
               (1 # 100)%Q (19 # 1000)%Q (1 # 1000)%Q).
    - eexists. reflexivity.
    - unfold config_number, getitem. now rewrite Hc.
    - unfold config_number, getitem. now rewrite Hh.
    - unfold config_number, getitem. now rewrite Hr.
    - unfold config_number, getitem. now rewrite Hl.
    - unfold config_number, getitem. now rewrite Hs.
    - unfold config_number, getitem. now rewrite Ha. }
  destruct Hgate as [before Hbefore].
  exists (before * float_of_bool (on_road (vehicle env)))%Q.
  unfold DevHighway._reward, mbind, M_bind, lift, get_env, mret, M_ret.
  rewrite Hrun. cbn [config set_previous_acceleration set_previous_steering].
  rewrite Hcfg, Hbefore. reflexivity.
Qed.

Lemma set_crashed_rewards (b : bool) (env : Env) (range : Q * Q)
    (ws steering wa acceleration cost : Q) :
  dev_components (set_crashed b env) range ws steering wa acceleration cost
  = ("collision_reward", if b then (-1)%Q else 0%Q)
    :: tail (dev_components env range ws steering wa acceleration cost).
Proof. reflexivity. Qed.

(** C9: under the extended policy's default configuration the collision
    weight is -1 and the collision component of a crashed vehicle is -1.0,
    so the collision term of the weighted sum is +1 when crashed and 0
    otherwise: the weighted sum of a crashed state exceeds by 1 that of
    the same state without the crash. *)
Theorem crash_raises_weighted_sum (env : Env) (action : Action)
    (steering acceleration : Q) :
  config env = DevHighway.default_config ->
  abstract_default_config !! "on_road_reward" = None ->
  action_item action 1 = Ok steering ->
  action_item action 0 = Ok acceleration ->
  exists comps_crashed comps_intact c_crashed c_intact total_crashed total_intact,
    (DevHighway._rewards action (set_crashed true env)).1 = Ok comps_crashed /\
    (DevHighway._rewards action (set_crashed false env)).1 = Ok comps_intact /\
    as_number (dict_get (config env) "collision_reward" (VNum 0)) = Ok (-1)%Q /\
    components_getitem comps_crashed "collision_reward" = Ok c_crashed /\
    (-1 * c_crashed == 1)%Q /\
    components_getitem comps_intact "collision_reward" = Ok c_intact /\
    (-1 * c_intact == 0)%Q /\
    weighted_sum (config env) comps_crashed 0 = Ok total_crashed /\
    weighted_sum (config env) comps_intact 0 = Ok total_intact /\
    (total_crashed == total_intact + 1)%Q /\
    (total_intact < total_crashed)%Q.
Proof.
  intros Hcfg Habs Hsteer Hacc.
  destruct DevHighway_default_entries
    as (Hc & _ & _ & _ & Hs & Ha & Hk & Hrg & _ & _).
  assert (Hrun : forall b,
    (DevHighway._rewards action (set_crashed b env)).1
    = Ok (dev_components (set_crashed b env) (20, 30)%Q (19 # 1000) steering
            (1 # 1000) acceleration 4)).
  { intros b.
    rewrite (DevHighway_rewards_run (set_crashed b env) action (20, 30)%Q
               (19 # 1000) steering (1 # 1000) acceleration);
      try assumption;
      change (config (set_crashed b env)) with (config env);
      rewrite Hcfg; unfold config_number, getitem.
    - now rewrite Hk.
    - now rewrite Hrg.
    - now rewrite Hs.
    - now rewrite Ha. }
  exists (dev_components (set_crashed true env) (20, 30)%Q (19 # 1000) steering
            (1 # 1000) acceleration 4).
  exists (dev_components (set_crashed false env) (20, 30)%Q (19 # 1000) steering
            (1 # 1000) acceleration 4).
  eexists (-1)%Q, 0%Q, _, _.
  split; [apply Hrun |]. split; [apply Hrun |].
  split.
  { unfold dict_get. now rewrite Hcfg, Hc. }
  split; [reflexivity |]. split; [reflexivity |].
  split; [reflexivity |]. split; [reflexivity |].
  rewrite !set_crashed_rewards, Hcfg. unfold dev_components. cbn [tail].
  rewrite !DevHighway_default_weighted_sum by assumption.
  split; [reflexivity |]. split; [reflexivity |].
  split; [ring | lra].
Qed.

End Rewards.

(** ** The lane-distance query *)

Section LaneDistance.
Context `{Collaborators}.

Lemma lanes_loop_lengths (v : Vehicle) (_from _to : Node) (lanes : list Lane)
    (_id : nat) (acc : list LaneIndex * list Q) :
  let out := DevHighway.lanes_loop v _from _to _id lanes acc in
  length out.1 = (length acc.1 + length lanes)%nat /\
  length out.2 = (length acc.2 + length lanes)%nat.
Proof.
  revert _id acc. induction lanes as [| l rest IH]; intros _id acc; simpl.
  - split; lia.
  - destruct (IH (S _id)
      (acc.1 ++ [(_from, _to, Z.of_nat _id)],
       acc.2 ++ [distance_with_heading l (position v) (heading v)])) as [H1 H2].
    simpl in H1, H2. rewrite H1, H2, !length_app. simpl. split; lia.
Qed.

Lemma to_loop_lengths (v : Vehicle) (_from : Node)
    (to_dict : list (Node * list Lane)) (acc : list LaneIndex * list Q) :
  let out := DevHighway.to_loop v _from to_dict acc in
  let n := sum_list (map (fun to_item => length to_item.2) to_dict) in
  length out.1 = (length acc.1 + n)%nat /\
  length out.2 = (length acc.2 + n)%nat.
Proof.
  revert acc. induction to_dict as [| [_to lanes] rest IH]; intros acc; simpl.
  - split; lia.
  - destruct (IH (DevHighway.lanes_loop v _from _to 0 lanes acc)) as [H1 H2].
    destruct (lanes_loop_lengths v _from _to lanes 0 acc) as [L1 L2].
    simpl in *. rewrite H1, H2, L1, L2. split; lia.
Qed.

Lemma from_loop_lengths (v : Vehicle)
    (items : list (Node * list (Node * list Lane)))
    (acc : list LaneIndex * list Q) :
  let out := DevHighway.from_loop v items acc in
  let n := sum_list (map (fun from_item =>
             sum_list (map (fun to_item => length to_item.2) from_item.2)) items) in
  length out.1 = (length acc.1 + n)%nat /\
  length out.2 = (length acc.2 + n)%nat.
Proof.
  revert acc. induction items as [| [_from to_dict] rest IH]; intros acc; simpl.
  - split; lia.
  - destruct (IH (DevHighway.to_loop v _from to_dict acc)) as [H1 H2].
    destruct (to_loop_lengths v _from to_dict acc) as [L1 L2].
    simpl in *. rewrite H1, H2, L1, L2. split; lia.
Qed.

(** The loops build an identifier and a distance for every lane segment. *)
Lemma lane_distance_locals_lengths (v : Vehicle) :
  length (DevHighway.lane_distance_locals v).1
  = lane_segments (network (vehicle_road v)) /\
  length (DevHighway.lane_distance_locals v).2
  = lane_segments (network (vehicle_road v)).
Proof.
  unfold DevHighway.lane_distance_locals, lane_segments.
  destruct (from_loop_lengths v (graph (network (vehicle_road v))) ([], []))
    as [H1 H2].
  simpl in *. now rewrite H1, H2.
Qed.

(** What is returned is the distance list alone. *)
Lemma lane_distance_length (v : Vehicle) :
  length (DevHighway.lane_distance v) = lane_segments (network (vehicle_road v)).
Proof. apply lane_distance_locals_lengths. Qed.

End LaneDistance.

(** C1: on the two-lane road, [lane_distance] builds the identifiers of both
    lanes next to their distances, and returns the distances only. *)
Theorem lane_distance_returns_distances_only :
  let v := Scenario.ego false true in
  @DevHighway.lane_distance_locals Scenario.geometry v
  = ([("0", "1", 0%Z); ("0", "1", 1%Z)], [1 # 2; 7 # 2]%Q) /\
  @DevHighway.lane_distance Scenario.geometry v = [1 # 2; 7 # 2]%Q.
Proof. split; reflexivity. Qed.

(** * The properties on the concrete scenario *)

Lemma collision_component_conventions_witness :
  let env := Scenario.env Scenario.dev_config (Scenario.ego true true) in
  (exists comps,
     @HighwayEnv._rewards _ Scenario.collaborators env Scenario.first_action = Ok comps /\
     components_getitem comps "collision_reward" = Ok 1%Q) /\
  (exists comps,
     (@DevHighway._rewards _ Scenario.collaborators Scenario.first_action env).1 = Ok comps /\
     components_getitem comps "collision_reward" = Ok (-1)%Q).
Proof.
  intros env.
  destruct (@collision_component_conventions _ Scenario.collaborators env
              Scenario.first_action) as [Hbase Hdev].
  split; eexists; (split; [vm_compute; reflexivity |]).
  - apply Hbase. vm_compute. reflexivity.
  - apply Hdev. vm_compute. reflexivity.
Defined.



Lemma is_terminated_spec_witness :
  let off_road := Scenario.env (<["offroad_terminal" := VBool true]> Scenario.base_config)
                               (Scenario.ego false false) in
  let crash := Scenario.env Scenario.base_config (Scenario.ego true true) in
  @HighwayEnv._is_terminated _ off_road = Ok true /\
  @HighwayEnv._is_terminated _ crash = Ok true.
Proof.
  intros off_road crash. split.
  - apply (proj1 (@is_terminated_spec _ off_road) (VBool true)).
    vm_compute. reflexivity.
  - apply (proj2 (@is_terminated_spec _ crash)). reflexivity.
Defined.

Lemma off_road_reward_zero_witness :
  (exists r,
     @HighwayEnv._reward _ Scenario.collaborators
       (Scenario.env Scenario.base_config (Scenario.ego true false)) (Discrete 1) = Ok r /\
     (r == 0)%Q) /\
  (exists r,
     (@DevHighway._reward _ Scenario.collaborators Scenario.first_action
        (Scenario.env Scenario.dev_config (Scenario.ego true false))).1 = Ok r /\
     (r == 0)%Q).
Proof.
  split; eexists; (split; [vm_compute; reflexivity |]).
  - apply (proj1 (@off_road_reward_zero _ Scenario.collaborators
                    (Scenario.env Scenario.base_config (Scenario.ego true false))
                    (Discrete 1) eq_refl)).
    vm_compute. reflexivity.
  - apply (proj2 (@off_road_reward_zero _ Scenario.collaborators
                    (Scenario.env Scenario.dev_config (Scenario.ego true false))
                    Scenario.first_action eq_refl)).
    vm_compute. reflexivity.
Defined.

Lemma rewards_updates_previous_controls_witness :
  let env := Scenario.env Scenario.dev_config (Scenario.ego true false) in
  let env' := Scenario.rewards_state Scenario.first_action env in
  previous_steering env' = (1 # 2)%Q /\
  previous_acceleration env' = (1 # 10)%Q /\
  env' = {| config := config env; road := road env; vehicle := vehicle env;
            time := time env; previous_steering := (1 # 2)%Q;
            previous_acceleration := (1 # 10)%Q |} /\
  (@DevHighway._reward _ Scenario.collaborators Scenario.first_action env).2 = env'.
Proof.
  intros env env'.
  apply (@rewards_updates_previous_controls _ Scenario.collaborators env
           Scenario.first_action (20, 30)%Q (19 # 1000)%Q (1 # 2)%Q
           (1 # 1000)%Q (1 # 10)%Q);
    vm_compute; reflexivity.
Defined.

Lemma steering_penalty_scenario_witness :
  let env := Scenario.env Scenario.dev_config (Scenario.ego false true) in
  let env0 := Scenario.reset env in
  let env1 := Scenario.rewards_state Scenario.first_action env0 in
  let env1' := Scenario.set_vehicle (Scenario.ego false false) env1 in
  exists comps1 comps2,
    (@DevHighway._rewards _ Scenario.collaborators Scenario.first_action env0).1 = Ok comps1 /\
    (@DevHighway._rewards _ Scenario.collaborators Scenario.second_action env1').1 = Ok comps2 /\
    (exists p1, components_getitem comps1 "abrupt_steering_penalty" = Ok p1 /\
                (p1 == - (19 # 1000) * (1 # 2))%Q) /\
    (previous_steering env1 == 1 # 2)%Q /\
    (exists p2, components_getitem comps2 "abrupt_steering_penalty" = Ok p2 /\
                (p2 == 0)%Q).
Proof.
  intros env env0 env1 env1'. eexists _, _.
  split; [vm_compute; reflexivity |]. split; [vm_compute; reflexivity |].
  apply (@steering_penalty_scenario _ Scenario.collaborators env env0 env1 env1'
           (Scenario.rewards_state Scenario.second_action env1')
           Scenario.first_action Scenario.second_action (1 # 2)%Q (1 # 2)%Q
           (19 # 1000)%Q);
    vm_compute; reflexivity.
Defined.

Lemma normalized_reward_is_remap_witness :
  let env := Scenario.env Scenario.dev_config (Scenario.ego false true) in
  (exists rewards total before r,
     @HighwayEnv._rewards _ Scenario.collaborators env Scenario.first_action = Ok rewards /\
     weighted_sum (config env) rewards 0 = Ok total /\
     @HighwayEnv.reward_before_gate (config env) rewards = Ok before /\
     (before == linear_remap total (-1) ((35 # 100) + (1 # 10)))%Q /\
     @HighwayEnv._reward _ Scenario.collaborators env Scenario.first_action = Ok r /\
     (r == before * 1)%Q) /\
  (exists rewards total before r,
     (@DevHighway._rewards _ Scenario.collaborators Scenario.first_action env).1 = Ok rewards /\
     weighted_sum (config env) rewards 0 = Ok total /\
     @DevHighway.reward_before_gate (config env) rewards = Ok before /\
     (before == linear_remap total (-1)
                  ((35 # 100) + (1 # 10) + (1 # 100) + (19 # 1000) + (1 # 1000)))%Q /\
     (@DevHighway._reward _ Scenario.collaborators Scenario.first_action env).1 = Ok r /\
     (r == before * 1)%Q).
Proof.
  intros env.
  assert (Hn : config env !! "normalize_reward" = Some (VBool true))
    by (vm_compute; reflexivity).
  assert (Hlo : config_number (config env) "collision_reward" = Ok (-1)%Q)
    by (vm_compute; reflexivity).
  assert (Hhs : config_number (config env) "high_speed_reward" = Ok (35 # 100)%Q)
    by (vm_compute; reflexivity).
  assert (Hrl : config_number (config env) "right_lane_reward" = Ok (1 # 10)%Q)
    by (vm_compute; reflexivity).
  destruct (@normalized_reward_is_remap _ Scenario.collaborators env
              Scenario.first_action (VBool true) (-1)%Q (35 # 100)%Q (1 # 10)%Q
              Hn eq_refl Hlo Hhs Hrl) as [Hbase Hdev].
  split.
  - eexists _, _.
    assert (Hrun : @HighwayEnv._rewards _ Scenario.collaborators env
                     Scenario.first_action = Ok _) by (vm_compute; reflexivity).
    match type of Hrun with
    | _ = Ok ?rewards =>
        assert (Hsum : weighted_sum (config env) rewards 0 = Ok _)
          by (vm_compute; reflexivity)
    end.
    destruct (Hbase _ _ Hrun Hsum) as (before & r & H1 & H2 & H3 & H4).
    exists before, r. repeat split; assumption.
  - eexists _, _.
    assert (Hrun : (@DevHighway._rewards _ Scenario.collaborators
                      Scenario.first_action env).1 = Ok _) by (vm_compute; reflexivity).
    match type of Hrun with
    | _ = Ok ?rewards =>
        assert (Hsum : weighted_sum (config env) rewards 0 = Ok _)
          by (vm_compute; reflexivity)
    end.
    assert (Hlc : config_number (config env) "lane_centering_reward" = Ok (1 # 100)%Q)
      by (vm_compute; reflexivity).
    assert (Hst : config_number (config env) "abrupt_steering_penalty" = Ok (19 # 1000)%Q)
      by (vm_compute; reflexivity).
    assert (Hac : config_number (config env) "abrupt_acceleration_penalty"
                  = Ok (1 # 1000)%Q) by (vm_compute; reflexivity).
    destruct (Hdev _ _ _ _ _ Hlc Hst Hac Hrun Hsum) as (before & r & H1 & H2 & H3 & H4).
    exists before, r. repeat split; assumption.
Defined.

Lemma absent_weight_contributes_nothing_witness :
  Scenario.base_config !! "on_road_reward" = None /\
  as_number (dict_get Scenario.base_config "on_road_reward" (VNum 0)) = Ok 0%Q /\
  res_equiv
    (weighted_sum Scenario.base_config
       ([("collision_reward", 0%Q); ("right_lane_reward", 1%Q);
         ("high_speed_reward", (1 # 2)%Q)] ++ [("on_road_reward", 1%Q)]) 0)
    (weighted_sum Scenario.base_config
       ([("collision_reward", 0%Q); ("right_lane_reward", 1%Q);
         ("high_speed_reward", (1 # 2)%Q)] ++ []) 0).
Proof.
  split; [vm_compute; reflexivity |].
  apply (absent_weight_contributes_nothing Scenario.base_config "on_road_reward" 1%Q
           [("collision_reward", 0%Q); ("right_lane_reward", 1%Q);
            ("high_speed_reward", (1 # 2)%Q)] [] 0%Q).
  vm_compute. reflexivity.
Defined.

Lemma crash_raises_weighted_sum_witness :
  let env := Scenario.env Scenario.dev_config (Scenario.ego false true) in
  exists comps_crashed comps_intact c_crashed c_intact total_crashed total_intact,
    (@DevHighway._rewards _ Scenario.collaborators Scenario.first_action
       (set_crashed true env)).1 = Ok comps_crashed /\
    (@DevHighway._rewards _ Scenario.collaborators Scenario.first_action
       (set_crashed false env)).1 = Ok comps_intact /\
    as_number (dict_get (config env) "collision_reward" (VNum 0)) = Ok (-1)%Q /\
    components_getitem comps_crashed "collision_reward" = Ok c_crashed /\
    (-1 * c_crashed == 1)%Q /\
    components_getitem comps_intact "collision_reward" = Ok c_intact /\
    (-1 * c_intact == 0)%Q /\
    weighted_sum (config env) comps_crashed 0 = Ok total_crashed /\
    weighted_sum (config env) comps_intact 0 = Ok total_intact /\
    (total_crashed == total_intact + 1)%Q /\
    (total_intact < total_crashed)%Q.
Proof.
  intros env.
  apply (@crash_raises_weighted_sum _ Scenario.collaborators env
           Scenario.first_action (1 # 2)%Q (1 # 10)%Q);
    reflexivity.
Defined.

(** * Further properties of the reward components *)

Lemma np_clip_unit (v : Q) : (0 <= np_clip v 0 1 <= 1)%Q.
Proof.
  unfold np_clip. split.
  - apply Q.min_glb; [apply Q.le_max_r | discriminate].
  - apply Q.le_min_r.
Qed.

Lemma np_clip_below (v : Q) : (v <= 0 -> np_clip v 0 1 == 0)%Q.
Proof.
  intros Hv. unfold np_clip.
  rewrite (Q.max_r v 0 Hv). apply Q.min_l. discriminate.
Qed.

Lemma np_clip_above (v : Q) : (1 <= v -> np_clip v 0 1 == 1)%Q.
Proof.
  intros Hv. unfold np_clip.
  rewrite (Q.max_l v 0) by lra. now apply Q.min_r.
Qed.

Lemma np_clip_inside (v : Q) : (0 <= v <= 1 -> np_clip v 0 1 == v)%Q.
Proof.
  intros [Hlo Hhi]. unfold np_clip.
  rewrite (Q.max_l v 0 Hlo). now apply Q.min_l.
Qed.

Section Components.
Context `{Collaborators}.

(** The components that either policy's [_rewards] has returned, by name. *)
Lemma returned_components (env : Env) (action : Action) (comps : Components) :
  HighwayEnv._rewards env action = Ok comps \/
  (DevHighway._rewards action env).1 = Ok comps ->
  exists range,
    getitem (config env) "reward_speed_range" ≫= as_interval = Ok range /\
    components_getitem comps "high_speed_reward"
    = Ok (np_clip (utils.lmap (speed (vehicle env) * np_cos (heading (vehicle env)))
                     range (0, 1)%Q) 0 1) /\
    components_getitem comps "on_road_reward"
    = Ok (float_of_bool (on_road (vehicle env))).
Proof.
  intros [Hrun | Hrun].
  - rewrite HighwayEnv_rewards_unfold in Hrun.
    destruct (getitem (config env) "reward_speed_range" ≫= as_interval)
      as [range | e]; [| discriminate].
    injection Hrun as <-. exists range. repeat split; reflexivity.
  - apply DevHighway_rewards_ok in Hrun
      as (range & ws & st & wa & ac & cost & Hr & _ & _ & _ & _ & _ & ->).
    exists range. repeat split; try reflexivity. exact Hr.
Qed.

(** X1: for a configured speed range [lo, hi] of non-zero width, in
    either order, the high-speed component that either policy returns lies
    in [0, 1], whatever the speed and the heading. *)
Theorem high_speed_reward_clamped (env : Env) (action : Action) (comps : Components)
    (lo hi : Q) (rest : list Q) :
  config env !! "reward_speed_range" = Some (VList (lo :: hi :: rest)) ->
  ~ (lo == hi)%Q ->
  HighwayEnv._rewards env action = Ok comps \/
  (DevHighway._rewards action env).1 = Ok comps ->
  exists h,
    components_getitem comps "high_speed_reward" = Ok h /\
    (h == np_clip ((speed (vehicle env) * np_cos (heading (vehicle env)) - lo)
                   / (hi - lo)) 0 1)%Q /\
    (0 <= h <= 1)%Q.
Proof.
  intros Hcfg Hwidth (range & Hrange & Hh & _)%returned_components.
  unfold getitem in Hrange. rewrite Hcfg in Hrange. injection Hrange as <-.
  eexists. split; [exact Hh |]. split; [| apply np_clip_unit].
  assert (Hv : (utils.lmap (speed (vehicle env) * np_cos (heading (vehicle env)))
                  (lo, hi) (0, 1)
                == (speed (vehicle env) * np_cos (heading (vehicle env)) - lo)
                   / (hi - lo))%Q).
  { unfold utils.lmap. simpl. field. intros Hd. apply Hwidth. lra. }
  unfold np_clip. now rewrite Hv.
Qed.

Lemma lmap_unit_value (v lo hi : Q) :
  (lo < hi -> utils.lmap v (lo, hi) (0, 1) == (v - lo) / (hi - lo))%Q.
Proof. intros Hlt. unfold utils.lmap. simpl. field. lra. Qed.

(** X2: with a speed range [lo, hi], lo < hi, the high-speed component is
    0 up to forward speed lo, 1 from hi on, and (forward_speed - lo) /
    (hi - lo) in between. *)
Theorem high_speed_reward_saturates (env : Env) (action : Action)
    (comps : Components) (lo hi : Q) (rest : list Q) :
  config env !! "reward_speed_range" = Some (VList (lo :: hi :: rest)) ->
  (lo < hi)%Q ->
  HighwayEnv._rewards env action = Ok comps \/
  (DevHighway._rewards action env).1 = Ok comps ->
  let forward_speed := (speed (vehicle env) * np_cos (heading (vehicle env)))%Q in
  exists h,
    components_getitem comps "high_speed_reward" = Ok h /\
    ((forward_speed <= lo)%Q -> (h == 0)%Q) /\
    ((hi <= forward_speed)%Q -> (h == 1)%Q) /\
    ((lo <= forward_speed <= hi)%Q -> (h == (forward_speed - lo) / (hi - lo))%Q).
Proof.
  intros Hcfg Hlt (range & Hrange & Hh & _)%returned_components forward_speed.
  unfold getitem in Hrange. rewrite Hcfg in Hrange. injection Hrange as <-.
  eexists. split; [exact Hh |]. fold forward_speed.
  assert (Hd : (0 < hi - lo)%Q) by lra.
  pose proof (lmap_unit_value forward_speed lo hi Hlt) as Hv.
  split; [| split]; intros Hf.
  - apply np_clip_below. rewrite Hv.
    apply Qle_shift_div_r; [exact Hd | lra].
  - apply np_clip_above. rewrite Hv.
    apply Qle_shift_div_l; [exact Hd | lra].
  - rewrite <- Hv. apply np_clip_inside. rewrite Hv. split.
    + apply Qle_shift_div_l; [exact Hd | lra].
    + apply Qle_shift_div_r; [exact Hd | lra].
Qed.

(** X3: for a non-negative [lane_centering_cost] the lane-centering
    component is 1 / (1 + cost * lateral^2), lies in (0, 1], and is 1 on the
    centre line. *)
Theorem lane_centering_reward_range (env : Env) (action : Action)
    (comps : Components) (cost : Q) :
  config_number (config env) "lane_centering_cost" = Ok cost ->
  (0 <= cost)%Q ->
  (DevHighway._rewards action env).1 = Ok comps ->
  let lateral := (local_coordinates (lane (vehicle env)) (position (vehicle env))).2 in
  exists c,
    components_getitem comps "lane_centering_reward" = Ok c /\
    (c == 1 / (1 + cost * (lateral * lateral)))%Q /\
    (0 < c <= 1)%Q /\
    ((lateral == 0)%Q -> (c == 1)%Q).
Proof.
  intros Hcost Hpos Hrun lateral.
  apply DevHighway_rewards_ok in Hrun
    as (range & ws & st & wa & ac & cost' & _ & _ & _ & _ & _ & Hcost' & ->).
  assert (cost' = cost) as -> by congruence.
  eexists. split; [reflexivity |]. fold lateral.
  assert (Hsq : (lateral ^ 2 == lateral * lateral)%Q) by (simpl; ring).
  assert (Hd : (1 <= 1 + cost * (lateral * lateral))%Q).
  { assert (0 <= lateral * lateral)%Q by nra.
    assert (0 <= cost * (lateral * lateral))%Q by (apply Qmult_le_0_compat; assumption).
    lra. }
  split; [now rewrite Hsq |]. rewrite Hsq. split; [split |].
  - apply Qlt_shift_div_l; lra.
  - apply Qle_shift_div_r; lra.
  - intros Hz. rewrite Hz.
    setoid_replace (1 + cost * (0 * 0))%Q with 1%Q using relation Qeq by ring.
    reflexivity.
Qed.

End Components.

Section Smoothness.
Context `{Collaborators}.

(** X4: the two smoothness components are minus the weight times the
    absolute change of the steering (second) and of the acceleration (first)
    action component; with non-negative weights they are never positive. *)
Theorem smoothness_penalties_spec (env : Env) (action : Action)
    (comps : Components) (ws wa steering acceleration : Q) :
  config_number (config env) "abrupt_steering_penalty" = Ok ws ->
  config_number (config env) "abrupt_acceleration_penalty" = Ok wa ->
  action_item action 1 = Ok steering ->
  action_item action 0 = Ok acceleration ->
  (DevHighway._rewards action env).1 = Ok comps ->
  exists ps pa,
    components_getitem comps "abrupt_steering_penalty" = Ok ps /\
    components_getitem comps "abrupt_acceleration_penalty" = Ok pa /\
    (ps == - (ws * Qabs (steering - previous_steering env)))%Q /\
    (pa == - (wa * Qabs (acceleration - previous_acceleration env)))%Q /\
    ((0 <= ws)%Q -> (ps <= 0)%Q) /\
    ((0 <= wa)%Q -> (pa <= 0)%Q).
Proof.
  intros Hws Hwa Hst Hac Hrun.
  apply DevHighway_rewards_ok in Hrun
    as (range & ws' & st' & wa' & ac' & cost & _ & Hws' & Hst' & Hwa' & Hac' & _ & ->).
  assert (ws' = ws) as -> by congruence.
  assert (wa' = wa) as -> by congruence.
  assert (st' = steering) as -> by congruence.
  assert (ac' = acceleration) as -> by congruence.
  eexists _, _. split; [reflexivity |]. split; [reflexivity |].
  split; [reflexivity |]. split; [reflexivity |].
  split; intros Hw.
  - pose proof (Qabs_nonneg (steering - previous_steering env)) as Habs.
    assert (0 <= ws * Qabs (steering - previous_steering env))%Q
      by (apply Qmult_le_0_compat; assumption).
    lra.
  - pose proof (Qabs_nonneg (acceleration - previous_acceleration env)) as Habs.
    assert (0 <= wa * Qabs (acceleration - previous_acceleration env))%Q
      by (apply Qmult_le_0_compat; assumption).
    lra.
Qed.

Lemma Qabs_self (x : Q) : (Qabs (x - x) == 0)%Q.
Proof.
  setoid_replace (x - x)%Q with 0%Q using relation Qeq by ring. reflexivity.
Qed.

(** X5: the same action twice in a row costs nothing the second time:
    both smoothness components are 0, whatever else changed in between. *)
Theorem repeated_action_costs_nothing (env env1 env1' env2 : Env)
    (action : Action) (comps1 comps2 : Components) :
  DevHighway._rewards action env = (Ok comps1, env1) ->
  previous_steering env1' = previous_steering env1 ->
  previous_acceleration env1' = previous_acceleration env1 ->
  DevHighway._rewards action env1' = (Ok comps2, env2) ->
  exists ps pa,
    components_getitem comps2 "abrupt_steering_penalty" = Ok ps /\
    components_getitem comps2 "abrupt_acceleration_penalty" = Ok pa /\
    (ps == 0)%Q /\ (pa == 0)%Q.
Proof.
  intros Hrun1 Hks Hka Hrun2.
  assert (Hc1 : (DevHighway._rewards action env).1 = Ok comps1) by now rewrite Hrun1.
  assert (Hc2 : (DevHighway._rewards action env1').1 = Ok comps2) by now rewrite Hrun2.
  destruct (DevHighway_rewards_ok _ _ _ Hc1)
    as (range & ws & st & wa & ac & cost & Hr & Hs & Hst & Ha & Hac & _ & _).
  assert (Henv1 : env1 = set_previous_acceleration ac (set_previous_steering st env)).
  { rewrite (DevHighway_rewards_run env action range ws st wa ac) in Hrun1
      by assumption. congruence. }
  destruct (DevHighway_rewards_ok _ _ _ Hc2)
    as (range' & ws' & st' & wa' & ac' & cost' & _ & _ & Hst' & _ & Hac' & _ & ->).
  assert (st' = st) as -> by congruence.
  assert (ac' = ac) as -> by congruence.
  eexists _, _. split; [reflexivity |]. split; [reflexivity |].
  rewrite Hks, Hka, Henv1.
  cbn [previous_steering previous_acceleration set_previous_acceleration
       set_previous_steering].
  rewrite !Qabs_self. split; ring.
Qed.

(** X6: on the same environment the two policies return the same
    right-lane, high-speed and on-road components; the collision components
    are opposite. *)
Theorem policies_share_components (env : Env) (action : Action)
    (base extended : Components) :
  HighwayEnv._rewards env action = Ok base ->
  (DevHighway._rewards action env).1 = Ok extended ->
  components_getitem extended "right_lane_reward"
  = components_getitem base "right_lane_reward" /\
  components_getitem extended "high_speed_reward"
  = components_getitem base "high_speed_reward" /\
  components_getitem extended "on_road_reward"
  = components_getitem base "on_road_reward" /\
  exists cb ce,
    components_getitem base "collision_reward" = Ok cb /\
    components_getitem extended "collision_reward" = Ok ce /\
    (ce == - cb)%Q.
Proof.
  intros Hbase Hext.
  rewrite HighwayEnv_rewards_unfold in Hbase.
  apply DevHighway_rewards_ok in Hext
    as (range & ws & st & wa & ac & cost & Hr & _ & _ & _ & _ & _ & ->).
  rewrite Hr in Hbase. injection Hbase as <-.
  repeat split; try reflexivity.
  eexists _, _. split; [reflexivity |]. split; [reflexivity |].
  now destruct (crashed (vehicle env)).
Qed.

(** X7: when the action has no second component the extended [_rewards]
    raises before any assignment, so the environment is unchanged:
    [TypeError] for a Python [int], [IndexError] for a numpy integer and
    for an array shorter than two. *)
Theorem rewards_rejects_short_action (env : Env) (action : Action)
    (range : Q * Q) (weight : Value) :
  getitem (config env) "reward_speed_range" ≫= as_interval = Ok range ->
  config env !! "abrupt_steering_penalty" = Some weight ->
  match action with
  | Discrete _ => True
  | Continuous a => (length a < 2)%nat
  | DiscreteNumpy _ => True
  end ->
  exists e,
    DevHighway._rewards action env = (Raise e, env) /\
    e = match action with
        | Discrete _ => TypeError
        | Continuous _ => IndexError
        | DiscreteNumpy _ => IndexError
        end.
Proof.
  intros Hrange Hweight Hshort.
  assert (Hitem : action_item action 1
    = Raise (match action with
             | Discrete _ => TypeError
             | Continuous _ => IndexError
             | DiscreteNumpy _ => IndexError
             end)).
  { destruct action as [n | a | n]; [reflexivity | | reflexivity]. simpl.
    destruct a as [| x [| y l]]; simpl in *; [reflexivity | reflexivity | lia]. }
  eexists. split; [| reflexivity].
  unfold mbind in Hrange.
  unfold DevHighway._rewards, mbind, M_bind, lift, get_env. simpl.
  rewrite Hrange. unfold getitem. rewrite Hweight. simpl. now rewrite Hitem.
Qed.

(** X8: the extended [_rewards] can raise after it has assigned: with
    the acceleration weight missing [previous_steering] is already
    overwritten, and with [lane_centering_cost] missing both previous
    controls are. *)
Theorem rewards_fails_after_assignments (env : Env) (action : Action)
    (range : Q * Q) (ws steering : Q) :
  getitem (config env) "reward_speed_range" ≫= as_interval = Ok range ->
  config_number (config env) "abrupt_steering_penalty" = Ok ws ->
  action_item action 1 = Ok steering ->
  (config env !! "abrupt_acceleration_penalty" = None ->
   DevHighway._rewards action env
   = (Raise (KeyError "abrupt_acceleration_penalty"),
      set_previous_steering steering env)) /\
  (forall wa acceleration,
     config_number (config env) "abrupt_acceleration_penalty" = Ok wa ->
     action_item action 0 = Ok acceleration ->
     config env !! "lane_centering_cost" = None ->
     DevHighway._rewards action env
     = (Raise (KeyError "lane_centering_cost"),
        set_previous_acceleration acceleration (set_previous_steering steering env))).
Proof.
  intros Hrange Hws Hsteer. split.
  - intros Hnone.
    apply config_number_inv in Hws as (vs & Hvs & Hws).
    unfold mbind in Hrange.
    unfold DevHighway._rewards, mbind, M_bind, lift, get_env, modify_env. simpl.
    rewrite Hrange, Hvs, Hsteer, Hws. simpl.
    unfold getitem. now rewrite Hnone.
  - intros wa acceleration Hwa Hacc Hnone.
    rewrite (DevHighway_rewards_run env action range ws steering wa acceleration)
      by assumption.
    unfold config_number, getitem. now rewrite Hnone.
Qed.

End Smoothness.

(** * Further properties of the aggregate reward *)

Section Aggregate.
Context `{Collaborators}.

(** [_reward] in terms of what [_rewards] returned and of the result of the
    steps before the gate. *)
Lemma HighwayEnv_reward_steps (env : Env) (action : Action) (comps : Components) :
  HighwayEnv._rewards env action = Ok comps ->
  HighwayEnv._reward env action
  = match HighwayEnv.reward_before_gate (config env) comps with
    | Ok reward => Ok (reward * float_of_bool (on_road (vehicle env)))%Q
    | Raise e => Raise e
    end.
Proof.
  intros Hrun. unfold HighwayEnv._reward. rewrite Hrun.
  rewrite HighwayEnv_rewards_unfold in Hrun.
  destruct (getitem (config env) "reward_speed_range" ≫= as_interval);
    [| discriminate].
  injection Hrun as <-.
  cbn [mbind Res_bind].
  now destruct (HighwayEnv.reward_before_gate (config env) _).
Qed.

Lemma DevHighway_reward_steps (env : Env) (action : Action) (comps : Components) :
  (DevHighway._rewards action env).1 = Ok comps ->
  (DevHighway._reward action env).1
  = match DevHighway.reward_before_gate (config env) comps with
    | Ok reward => Ok (reward * float_of_bool (on_road (vehicle env)))%Q
    | Raise e => Raise e
    end.
Proof.
  intros Hrun.
  destruct (DevHighway_rewards_ok _ _ _ Hrun)
    as (range & ws & st & wa & ac & cost & Hr & Hs & Hst & Ha & Hac & Hcost & ->).
  unfold DevHighway._reward, mbind, M_bind, lift, get_env, mret, M_ret.
  rewrite (DevHighway_rewards_run env action range ws st wa ac) by assumption.
  rewrite Hcost. cbn [config set_previous_acceleration set_previous_steering].
  now destruct (DevHighway.reward_before_gate (config env) _).
Qed.

(** X9: with [normalize_reward] falsy, [_reward] is the weighted sum
    times the on-road component, in both policies. *)
Theorem reward_without_normalization (env : Env) (action : Action)
    (comps : Components) (total : Q) (normalize : Value) :
  config env !! "normalize_reward" = Some normalize ->
  truthy normalize = false ->
  weighted_sum (config env) comps 0 = Ok total ->
  (HighwayEnv._rewards env action = Ok comps ->
   HighwayEnv._reward env action
   = Ok (total * float_of_bool (on_road (vehicle env)))%Q) /\
  ((DevHighway._rewards action env).1 = Ok comps ->
   (DevHighway._reward action env).1
   = Ok (total * float_of_bool (on_road (vehicle env)))%Q).
Proof.
  intros Hnorm Hoff Hsum. split; intros Hrun.
  - rewrite (HighwayEnv_reward_steps env action comps Hrun).
    unfold HighwayEnv.reward_before_gate, getitem.
    rewrite Hsum, Hnorm. cbn [mbind Res_bind]. now rewrite Hoff.
  - rewrite (DevHighway_reward_steps env action comps Hrun).
    unfold DevHighway.reward_before_gate, getitem.
    rewrite Hsum, Hnorm. cbn [mbind Res_bind]. now rewrite Hoff.
Qed.

(** X10: the lookups of the normalization are strict: a missing
    [normalize_reward] raises [KeyError], and so does a missing
    [collision_reward] once normalization is on, although the weighted sum
    itself took the absent weight as 0. *)
Theorem reward_strict_lookups (env : Env) (action : Action)
    (comps : Components) (total : Q) :
  weighted_sum (config env) comps 0 = Ok total ->
  (HighwayEnv._rewards env action = Ok comps ->
   (config env !! "normalize_reward" = None ->
    HighwayEnv._reward env action = Raise (KeyError "normalize_reward")) /\
   (forall normalize,
      config env !! "normalize_reward" = Some normalize ->
      truthy normalize = true ->
      config env !! "collision_reward" = None ->
      HighwayEnv._reward env action = Raise (KeyError "collision_reward"))) /\
  ((DevHighway._rewards action env).1 = Ok comps ->
   (config env !! "normalize_reward" = None ->
    (DevHighway._reward action env).1 = Raise (KeyError "normalize_reward")) /\
   (forall normalize,
      config env !! "normalize_reward" = Some normalize ->
      truthy normalize = true ->
      config env !! "collision_reward" = None ->
      (DevHighway._reward action env).1 = Raise (KeyError "collision_reward"))).
Proof.
  intros Hsum. split; intros Hrun.
  - rewrite (HighwayEnv_reward_steps env action comps Hrun).
    unfold HighwayEnv.reward_before_gate, HighwayEnv.normalization_range, getitem.
    rewrite Hsum. cbn [mbind Res_bind]. split.
    + now intros ->.
    + intros normalize Hn Ht Hc. rewrite Hn. cbn [mbind Res_bind].
      rewrite Ht, Hc. reflexivity.
  - rewrite (DevHighway_reward_steps env action comps Hrun).
    unfold DevHighway.reward_before_gate, DevHighway.normalization_range, getitem.
    rewrite Hsum. cbn [mbind Res_bind]. split.
    + now intros ->.
    + intros normalize Hn Ht Hc. rewrite Hn. cbn [mbind Res_bind].
      rewrite Ht, Hc. reflexivity.
Qed.

End Aggregate.

Section Defaults.
Context `{Collaborators}.

Lemma HighwayEnv_default_rewards (env : Env) (action : Action) :
  config env = HighwayEnv.default_config ->
  HighwayEnv._rewards env action
  = Ok [ ("collision_reward", float_of_bool (crashed (vehicle env)));
         ("right_lane_reward",
           (inject_Z (rewarded_lane (vehicle env))
            / inject_Z (Z.max (Z.of_nat (length (all_side_lanes (network (road env))
                                  (lane_index (vehicle env)))) - 1) 1))%Q);
         ("high_speed_reward",
           np_clip (utils.lmap (speed (vehicle env) * np_cos (heading (vehicle env)))
                      (20, 30)%Q (0, 1)%Q) 0 1);
         ("on_road_reward", float_of_bool (on_road (vehicle env))) ].
Proof.
  intros Hcfg.
  destruct HighwayEnv_default_entries as (_ & _ & _ & Hrange & _ & _).
  rewrite HighwayEnv_rewards_unfold, Hcfg. unfold getitem. now rewrite Hrange.
Qed.

Lemma HighwayEnv_default_before_gate (c r h o : Q) :
  abstract_default_config !! "on_road_reward" = None ->
  HighwayEnv.reward_before_gate HighwayEnv.default_config
    [ ("collision_reward", c); ("right_lane_reward", r);
      ("high_speed_reward", h); ("on_road_reward", o) ]
  = Ok (utils.lmap (0 + -1 * c + (1 # 10) * r + (4 # 10) * h + 0 * o)
          (-1, (4 # 10) + (1 # 10)) (0, 1))%Q.
Proof.
  intros Habs.
  destruct HighwayEnv_default_entries as (Hc & Hr & Hh & _ & Hnorm & Ho).
  unfold HighwayEnv.reward_before_gate, weighted_sum, dict_get, getitem.
  rewrite Hc, Hr, Hh, Ho, Habs, Hnorm.
  cbn [mbind Res_bind as_number default truthy].
  rewrite (HighwayEnv_normalization_range _ (-1)%Q (4 # 10)%Q (1 # 10)%Q).
  - reflexivity.
  - unfold config_number, getitem. now rewrite Hc.
  - unfold config_number, getitem. now rewrite Hh.
  - unfold config_number, getitem. now rewrite Hr.
Qed.

Lemma HighwayEnv_default_remap (total : Q) :
  (utils.lmap total (-1, (4 # 10) + (1 # 10)) (0, 1) == (total + 1) * (2 # 3))%Q.
Proof. rewrite lmap_unit_value by reflexivity. field. Qed.

Lemma float_of_bool_cases (b : bool) :
  (float_of_bool b == 0 \/ float_of_bool b == 1)%Q.
Proof. destruct b; [right | left]; reflexivity. Qed.

(** X11: under the default configuration of [HighwayEnv], and for a lane
    number that indexes one of the side lanes, [_reward] returns a value in
    [0, 1]. *)
Theorem default_reward_in_unit_interval (env : Env) (action : Action) :
  config env = HighwayEnv.default_config ->
  abstract_default_config !! "on_road_reward" = None ->
  (0 <= rewarded_lane (vehicle env)
     < Z.of_nat (length (all_side_lanes (network (road env))
                           (lane_index (vehicle env)))))%Z ->
  exists r, HighwayEnv._reward env action = Ok r /\ (0 <= r <= 1)%Q.
Proof.
  intros Hcfg Habs Hlane.
  pose proof (HighwayEnv_default_rewards env action Hcfg) as Hrun.
  rewrite (HighwayEnv_reward_steps env action _ Hrun), Hcfg.
  rewrite HighwayEnv_default_before_gate by assumption.
  eexists. split; [reflexivity |].
  rewrite HighwayEnv_default_remap.
  pose proof (right_lane_ratio_bounds _ _ Hlane) as Hr.
  pose proof (np_clip_unit (utils.lmap (speed (vehicle env) * np_cos (heading (vehicle env)))
                              (20, 30)%Q (0, 1)%Q)) as Hh.
  set (r := (inject_Z _ / inject_Z _)%Q) in *.
  set (h := np_clip _ 0 1) in *.
  destruct (float_of_bool_cases (crashed (vehicle env))) as [-> | ->],
           (float_of_bool_cases (on_road (vehicle env))) as [-> | ->];
    split; lra.
Qed.

(** X12: under the default configuration of [HighwayEnv] a crash lowers
    the reward: the crashed vehicle gets 2/3 less than the same vehicle
    intact, times the on-road component. *)
Theorem default_crash_cost (env : Env) (action : Action) :
  config env = HighwayEnv.default_config ->
  abstract_default_config !! "on_road_reward" = None ->
  exists crashed intact,
    HighwayEnv._reward (set_crashed true env) action = Ok crashed /\
    HighwayEnv._reward (set_crashed false env) action = Ok intact /\
    (crashed == intact - (2 # 3) * float_of_bool (on_road (vehicle env)))%Q.
Proof.
  intros Hcfg Habs.
  assert (Hrun : forall b,
    HighwayEnv._reward (set_crashed b env) action
    = Ok (utils.lmap (0 + -1 * float_of_bool b
                      + (1 # 10) * (inject_Z (rewarded_lane (vehicle env))
                          / inject_Z (Z.max (Z.of_nat (length (all_side_lanes
                              (network (road env)) (lane_index (vehicle env)))) - 1) 1))
                      + (4 # 10) * np_clip (utils.lmap
                          (speed (vehicle env) * np_cos (heading (vehicle env)))
                          (20, 30) (0, 1)) 0 1
                      + 0 * float_of_bool (on_road (vehicle env)))
            (-1, (4 # 10) + (1 # 10)) (0, 1)
          * float_of_bool (on_road (vehicle env)))%Q).
  { intros b.
    pose proof (HighwayEnv_default_rewards (set_crashed b env) action Hcfg) as Hb.
    rewrite (HighwayEnv_reward_steps _ action _ Hb).
    change (config (set_crashed b env)) with (config env). rewrite Hcfg.
    rewrite HighwayEnv_default_before_gate by assumption. reflexivity. }
  eexists _, _. split; [apply Hrun |]. split; [apply Hrun |].
  rewrite !HighwayEnv_default_remap. simpl float_of_bool. ring.
Qed.

Lemma DevHighway_default_before_gate (c r h o l s a : Q) :
  abstract_default_config !! "on_road_reward" = None ->
  DevHighway.reward_before_gate DevHighway.default_config
    [ ("collision_reward", c); ("right_lane_reward", r);
      ("high_speed_reward", h); ("on_road_reward", o);
      ("lane_centering_reward", l); ("abrupt_steering_penalty", s);
      ("abrupt_acceleration_penalty", a) ]
  = Ok (utils.lmap (0 + -1 * c + (1 # 10) * r + (35 # 100) * h + 0 * o
                    + (1 # 100) * l + (19 # 1000) * s + (1 # 1000) * a)
          (-1, (35 # 100) + (1 # 10) + (1 # 100) + (19 # 1000) + (1 # 1000))
          (0, 1))%Q.
Proof.
  intros Habs.
  destruct DevHighway_default_entries
    as (Hc & Hr & Hh & Hl & Hs & Ha & _ & _ & Hnorm & _).
  unfold DevHighway.reward_before_gate.
  rewrite DevHighway_default_weighted_sum by assumption.
  unfold getitem. rewrite Hnorm. cbn [mbind Res_bind truthy].
  rewrite (DevHighway_normalization_range _ (-1)%Q (35 # 100)%Q (1 # 10)%Q
             (1 # 100)%Q (19 # 1000)%Q (1 # 1000)%Q).
  - reflexivity.
  - unfold config_number, getitem. now rewrite Hc.
  - unfold config_number, getitem. now rewrite Hh.
  - unfold config_number, getitem. now rewrite Hr.
  - unfold config_number, getitem. now rewrite Hl.
  - unfold config_number, getitem. now rewrite Hs.
  - unfold config_number, getitem. now rewrite Ha.
Qed.

Lemma DevHighway_default_remap (total : Q) :
  (utils.lmap total
     (-1, (35 # 100) + (1 # 10) + (1 # 100) + (19 # 1000) + (1 # 1000)) (0, 1)
   == (total + 1) * (25 # 37))%Q.
Proof. rewrite lmap_unit_value by reflexivity. field. Qed.

(** X13: under the default configuration of [DevHighway] a crash raises
    the reward: the crashed vehicle gets 25/37 more than the same vehicle
    intact, times the on-road component. *)
Theorem extended_default_crash_bonus (env : Env) (action : Action)
    (steering acceleration : Q) :
  config env = DevHighway.default_config ->
  abstract_default_config !! "on_road_reward" = None ->
  action_item action 1 = Ok steering ->
  action_item action 0 = Ok acceleration ->
  exists crashed intact,
    (DevHighway._reward action (set_crashed true env)).1 = Ok crashed /\
    (DevHighway._reward action (set_crashed false env)).1 = Ok intact /\
    (crashed == intact + (25 # 37) * float_of_bool (on_road (vehicle env)))%Q.
Proof.
  intros Hcfg Habs Hsteer Hacc.
  destruct DevHighway_default_entries
    as (_ & _ & _ & _ & Hs & Ha & Hk & Hrg & _ & _).
  assert (Hrun : forall b,
    (DevHighway._rewards action (set_crashed b env)).1
    = Ok (dev_components (set_crashed b env) (20, 30)%Q (19 # 1000) steering
            (1 # 1000) acceleration 4)).
  { intros b.
    rewrite (DevHighway_rewards_run (set_crashed b env) action (20, 30)%Q
               (19 # 1000) steering (1 # 1000) acceleration);
      try assumption;
      change (config (set_crashed b env)) with (config env);
      rewrite Hcfg; unfold config_number, getitem.
    - now rewrite Hk.
    - now rewrite Hrg.
    - now rewrite Hs.
    - now rewrite Ha. }
  set (gate := float_of_bool (on_road (vehicle env))).
  assert (Hreward : exists r h l ps pa, forall b,
    (DevHighway._reward action (set_crashed b env)).1
    = Ok (utils.lmap (0 + -1 * (if b then -1 else 0) + (1 # 10) * r
                      + (35 # 100) * h + 0 * gate + (1 # 100) * l
                      + (19 # 1000) * ps + (1 # 1000) * pa)
            (-1, (35 # 100) + (1 # 10) + (1 # 100) + (19 # 1000) + (1 # 1000)) (0, 1)
          * gate)%Q).
  { eexists _, _, _, _, _. intros b.
    rewrite (DevHighway_reward_steps _ action _ (Hrun b)).
    change (config (set_crashed b env)) with (config env). rewrite Hcfg.
    rewrite set_crashed_rewards. unfold dev_components. cbn [tail].
    rewrite DevHighway_default_before_gate by assumption.
    reflexivity. }
  destruct Hreward as (r & h & l & ps & pa & Hreward).
  eexists _, _. split; [apply Hreward |]. split; [apply Hreward |].
  rewrite !DevHighway_default_remap. ring.
Qed.

End Defaults.

(** * Termination, truncation and the default configurations *)

Lemma last_binding_absent (items : list (string * Value)) (k : string) :
  k ∉ items.*1 -> last_binding items k = None.
Proof.
  induction items as [| [k' v] rest IH]; [reflexivity |].
  rewrite fmap_cons, not_elem_of_cons. intros [Hne Hrest]. simpl.
  rewrite (IH Hrest).
  destruct (String.eqb_spec k' k) as [-> | _]; [contradiction | reflexivity].
Qed.

Section Configurations.
Context `{Collaborators}.

(** X14: each [default_config] changes only the keys it lists: on every
    other key [HighwayEnv] agrees with [AbstractEnv], and [HighwayEnvFast]
    and [DevHighway] agree with [HighwayEnv]. *)
Theorem default_configs_inherit (k : string) :
  (k ∉ [ "observation"; "action"; "lanes_count"; "vehicles_count";
         "controlled_vehicles"; "initial_lane_id"; "duration"; "ego_spacing";
         "vehicles_density"; "collision_reward"; "right_lane_reward";
         "high_speed_reward"; "lane_change_reward"; "reward_speed_range";
         "normalize_reward"; "offroad_terminal" ] ->
   HighwayEnv.default_config !! k = abstract_default_config !! k) /\
  (k ∉ [ "simulation_frequency"; "lanes_count"; "vehicles_count"; "duration";
         "ego_spacing" ] ->
   HighwayEnvFast.default_config !! k = HighwayEnv.default_config !! k) /\
  (k ∉ [ "action"; "simulation_frequency"; "policy_frequency"; "lanes_count";
         "vehicles_count"; "duration"; "ego_spacing"; "lane_centering_cost";
         "lane_centering_reward"; "abrupt_steering_penalty";
         "abrupt_acceleration_penalty"; "right_lane_reward"; "high_speed_reward";
         "offroad_terminal" ] ->
   DevHighway.default_config !! k = HighwayEnv.default_config !! k).
Proof.
  unfold HighwayEnv.default_config, HighwayEnvFast.default_config,
    DevHighway.default_config.
  repeat split; intros Hk;
    rewrite dict_update_lookup, last_binding_absent; auto.
Qed.

Lemma default_offroad_terminal :
  HighwayEnv.default_config !! "offroad_terminal" = Some (VBool false) /\
  HighwayEnvFast.default_config !! "offroad_terminal" = Some (VBool false) /\
  DevHighway.default_config !! "offroad_terminal" = Some (VBool false).
Proof.
  unfold HighwayEnvFast.default_config, DevHighway.default_config,
    HighwayEnv.default_config.
  rewrite !dict_update_lookup. repeat split; reflexivity.
Qed.

(** X15: under any of the three default configurations the episode
    terminates exactly when the vehicle is crashed; leaving the road does
    not terminate it. *)
Theorem default_termination_is_crash (env : Env) :
  config env = HighwayEnv.default_config \/
  config env = HighwayEnvFast.default_config \/
  config env = DevHighway.default_config ->
  HighwayEnv._is_terminated env = Ok (crashed (vehicle env)).
Proof.
  destruct default_offroad_terminal as (Hb & Hf & Hd).
  unfold HighwayEnv._is_terminated, getitem.
  intros [-> | [-> | ->]]; rewrite ?Hb, ?Hf, ?Hd;
    now destruct (crashed (vehicle env)).
Qed.

(** X16: [_is_terminated] raises in one case only: the vehicle is not
    crashed and [offroad_terminal] is missing, and the error is that
    [KeyError]. *)
Theorem is_terminated_raises (env : Env) (e : PyError) :
  HighwayEnv._is_terminated env = Raise e <->
  crashed (vehicle env) = false /\
  config env !! "offroad_terminal" = None /\
  e = KeyError "offroad_terminal".
Proof.
  unfold HighwayEnv._is_terminated, getitem.
  destruct (crashed (vehicle env)).
  - split; [discriminate | intros (? & _); discriminate].
  - destruct (config env !! "offroad_terminal") as [v |]; simpl.
    + split; [destruct (truthy v); discriminate | intros (_ & ? & _); discriminate].
    + split; [intros [= <-]; auto | intros (_ & _ & ->); reflexivity].
Qed.

(** X17: with a numeric [duration], [_is_truncated] is true exactly when
    the duration is at most the elapsed time, and once true it stays true as
    time goes on. *)
Theorem is_truncated_spec (env : Env) (duration : Q) :
  config_number (config env) "duration" = Ok duration ->
  exists b,
    HighwayEnv._is_truncated env = Ok b /\
    (b = true <-> (duration <= time env)%Q) /\
    (forall later,
       config later = config env -> (time env <= time later)%Q -> b = true ->
       HighwayEnv._is_truncated later = Ok true).
Proof.
  intros Hd. unfold HighwayEnv._is_truncated. rewrite Hd. cbn [mbind Res_bind mret Res_ret].
  eexists. split; [reflexivity |]. split; [apply Qle_bool_iff |].
  intros later Hcfg Hlater Hb. rewrite Hcfg, Hd. cbn [mbind Res_bind mret Res_ret].
  f_equal. apply Qle_bool_iff. apply Qle_bool_iff in Hb. lra.
Qed.

(** X18: the first [_rewards] after a reset charges the magnitude of the
    action itself: minus the weight times |steering| and minus the weight
    times |acceleration|. *)
Theorem first_rewards_after_reset (env env0 : Env) (action : Action)
    (comps : Components) (ws wa steering acceleration : Q) :
  DevHighway._reset env = (Ok tt, env0) ->
  config_number (config env0) "abrupt_steering_penalty" = Ok ws ->
  config_number (config env0) "abrupt_acceleration_penalty" = Ok wa ->
  action_item action 1 = Ok steering ->
  action_item action 0 = Ok acceleration ->
  (DevHighway._rewards action env0).1 = Ok comps ->
  exists ps pa,
    components_getitem comps "abrupt_steering_penalty" = Ok ps /\
    components_getitem comps "abrupt_acceleration_penalty" = Ok pa /\
    (ps == - (ws * Qabs steering))%Q /\
    (pa == - (wa * Qabs acceleration))%Q.
Proof.
  intros Hreset Hws Hwa Hst Hac Hrun.
  apply DevHighway_reset_state in Hreset as [Hs0 Ha0].
  apply DevHighway_rewards_ok in Hrun
    as (range & ws' & st' & wa' & ac' & cost & _ & Hws' & Hst' & Hwa' & Hac' & _ & ->).
  assert (ws' = ws) as -> by congruence.
  assert (wa' = wa) as -> by congruence.
  assert (st' = steering) as -> by congruence.
  assert (ac' = acceleration) as -> by congruence.
  eexists _, _. split; [reflexivity |]. split; [reflexivity |].
  rewrite Hs0, Ha0.
  setoid_replace (steering - 0)%Q with steering using relation Qeq by ring.
  setoid_replace (acceleration - 0)%Q with acceleration using relation Qeq by ring.
  split; reflexivity.
Qed.

End Configurations.

(** * The lane-distance query as a map *)

Section LaneDistanceMap.
Context `{LaneGeometry}.

Lemma lanes_loop_map (v : Vehicle) (_from _to : Node) (lanes : list Lane)
    (_id : nat) (acc : list LaneIndex * list Q) :
  DevHighway.lanes_loop v _from _to _id lanes acc
  = (acc.1 ++ imap (fun i _ => (_from, _to, Z.of_nat (_id + i))) lanes,
     acc.2 ++ map (fun l => distance_with_heading l (position v) (heading v)) lanes).
Proof.
  revert _id acc. induction lanes as [| l rest IH]; intros _id acc.
  - simpl. rewrite !app_nil_r. now destruct acc.
  - cbn [DevHighway.lanes_loop]. rewrite IH. cbn [fst snd map imap].
    rewrite <- !app_assoc. simpl. rewrite Nat.add_0_r.
    do 3 f_equal. apply imap_ext. intros i x _. simpl. do 2 f_equal. lia.
Qed.

Lemma to_loop_map (v : Vehicle) (_from : Node) (to_dict : list (Node * list Lane))
    (acc : list LaneIndex * list Q) :
  DevHighway.to_loop v _from to_dict acc
  = (acc.1 ++ (to_dict ≫= fun to_item =>
                 imap (fun i _ => (_from, to_item.1, Z.of_nat i)) to_item.2),
     acc.2 ++ map (fun l => distance_with_heading l (position v) (heading v))
                (to_dict ≫= fun to_item => to_item.2)).
Proof.
  revert acc. induction to_dict as [| [_to lanes] rest IH]; intros acc.
  - simpl. rewrite !app_nil_r. now destruct acc.
  - cbn [DevHighway.to_loop]. rewrite IH, lanes_loop_map. cbn [fst snd].
    rewrite !bind_cons, map_app, <- !app_assoc. reflexivity.
Qed.

Lemma from_loop_map (v : Vehicle) (items : list (Node * list (Node * list Lane)))
    (acc : list LaneIndex * list Q) :
  DevHighway.from_loop v items acc
  = (acc.1 ++ segment_indexes {| graph := items |},
     acc.2 ++ map (fun l => distance_with_heading l (position v) (heading v))
                (segment_lanes {| graph := items |})).
Proof.
  unfold segment_indexes, segment_lanes. cbn [graph].
  revert acc. induction items as [| [_from to_dict] rest IH]; intros acc.
  - simpl. rewrite !app_nil_r. now destruct acc.
  - cbn [DevHighway.from_loop]. rewrite IH, to_loop_map. cbn [fst snd].
    rewrite !bind_cons, map_app, <- !app_assoc. reflexivity.
Qed.

Lemma bind_length_eq {A B C : Type} (f : A -> list B) (g : A -> list C)
    (l : list A) :
  (forall x, length (f x) = length (g x)) ->
  length (l ≫= f) = length (l ≫= g).
Proof.
  intros Hfg. induction l as [| x rest IH]; [reflexivity |].
  now rewrite !bind_cons, !length_app, IH, Hfg.
Qed.

Lemma segment_indexes_length (net : RoadNetwork) :
  length (segment_indexes net) = length (segment_lanes net).
Proof.
  unfold segment_indexes, segment_lanes.
  apply bind_length_eq. intros from_item.
  apply bind_length_eq. intros to_item. apply length_imap.
Qed.

(** X19: [lane_distance] returns the heading-aware distance of every
    lane of the graph, in iteration order, one per lane segment; the
    identifiers it builds alongside are (from, to, position in the list). *)
Theorem lane_distance_is_map (v : Vehicle) :
  let net := network (vehicle_road v) in
  DevHighway.lane_distance v
  = map (fun l => distance_with_heading l (position v) (heading v))
      (segment_lanes net) /\
  (DevHighway.lane_distance_locals v).1 = segment_indexes net /\
  length (segment_indexes net) = length (segment_lanes net) /\
  length (DevHighway.lane_distance v) = lane_segments net.
Proof.
  intros net.
  assert (Hnet : {| graph := graph (network (vehicle_road v)) |} = net)
    by (unfold net; now destruct (network (vehicle_road v))).
  split; [| split; [| split]].
  - unfold DevHighway.lane_distance, DevHighway.lane_distance_locals.
    now rewrite from_loop_map, Hnet.
  - unfold DevHighway.lane_distance_locals. now rewrite from_loop_map, Hnet.
  - apply segment_indexes_length.
  - apply lane_distance_length.
Qed.

End LaneDistanceMap.

(** * Scenario construction *)

Section BuilderFacts.
Context `{VehicleFactory}.

Lemma Extends_refl (s : Site) : Extends s s [] [].
Proof.
  split; rewrite ?app_nil_r; try reflexivity; try constructor.
  simpl. lia.
Qed.

Lemma Extends_trans (s s' s'' : Site) (a ac b bc : list RoadObject) :
  Extends s s' a ac -> Extends s' s'' b bc -> Extends s s'' (a ++ b) (ac ++ bc).
Proof.
  intros [Hroad Hctrl Hsub Hids Hfresh Hcfg Hnet Hhist Hchk]
         [Hroad' Hctrl' Hsub' Hids' Hfresh' Hcfg' Hnet' Hhist' Hchk'].
  split.
  - rewrite Hroad', Hroad. now rewrite app_assoc.
  - rewrite Hctrl', Hctrl. now rewrite app_assoc.
  - now apply sublist_app.
  - rewrite fmap_app, length_app, seq_app, Hids, Hids'.
    now rewrite Hfresh.
  - rewrite Hfresh', Hfresh, length_app. lia.
  - congruence.
  - congruence.
  - congruence.
  - now apply Forall_app.
Qed.

Lemma Extends_append (controlled : bool) (v : Vehicle) (g : Rng) (s : Site) :
  exists o,
    ident o = fresh s /\ body o = v /\
    Extends s (append_vehicle controlled v (set_np_random g s)) [o]
      (if controlled then [o] else []).
Proof.
  exists {| ident := fresh s; body := v;
            check_collisions := constructed_check_collisions |}.
  split; [reflexivity |]. split; [reflexivity |].
  split; simpl; try reflexivity.
  - destruct controlled; [reflexivity | now rewrite app_nil_r].
  - destruct controlled; [reflexivity | apply sublist_nil_l].
  - lia.
  - repeat constructor.
Qed.

(** One background vehicle: on success one uncontrolled vehicle more, on
    failure no change. *)
Lemma create_other_spec (cls : VehicleClass) (s s' : Site) (r : Res unit) :
  Builder.create_other cls s = (r, s') ->
  match r with
  | Ok _ => exists o, Extends s s' [o] []
  | Raise _ => s' = s
  end.
Proof.
  unfold Builder.create_other, mbind, B_bind, lift_site, get_site, modify_site.
  destruct (other_spacing (site_config s)) as [spacing | e]; [| now intros [= <- <-]].
  destruct (create_random_other cls (site_network s) (body <$> road_vehicles s)
              (np_random s) spacing) as [[v g] | e]; [| now intros [= <- <-]].
  simpl. intros [= <- <-].
  destruct (Extends_append false (randomize_behavior v g).1
              (randomize_behavior v g).2 s) as (o & _ & _ & Hext).
  now exists o.
Qed.

Lemma create_ego_spec (s s' : Site) (r : Res unit) :
  Builder.create_ego s = (r, s') ->
  match r with
  | Ok _ => exists o, Extends s s' [o] [o]
  | Raise _ => s' = s
  end.
Proof.
  unfold Builder.create_ego, mbind, B_bind, lift_site, get_site, modify_site.
  destruct (getitem (site_config s) "initial_lane_id") as [lane_id | e];
    [| now intros [= <- <-]].
  destruct (getitem (site_config s) "ego_spacing") as [spacing | e];
    [| now intros [= <- <-]].
  destruct (create_random (site_network s) (body <$> road_vehicles s)
              (np_random s) 25 lane_id spacing) as [[v g] | e];
    [| now intros [= <- <-]].
  simpl. intros [= <- <-].
  destruct (Extends_append true
              (vehicle_class (site_network s) (position v) (heading v) (speed v))
              g s) as (o & _ & _ & Hext).
  now exists o.
Qed.

(** The inner loop: it adds uncontrolled vehicles only, [others] of them
    when it succeeds. *)
Lemma others_loop_spec (cls : VehicleClass) (others : nat) (s s' : Site)
    (r : Res unit) :
  Builder.others_loop cls others s = (r, s') ->
  exists added,
    Extends s s' added [] /\
    (length added <= others)%nat /\
    (r = Ok tt -> length added = others).
Proof.
  revert s. induction others as [| n IH]; intros s; simpl.
  - intros [= <- <-]. exists []. split; [apply Extends_refl |]. simpl. split; [lia | reflexivity].
  - unfold mbind, B_bind.
    destruct (Builder.create_other cls s) as [[[] | e] s1] eqn:Hone;
      apply create_other_spec in Hone.
    + destruct Hone as (o & Hext1).
      intros (added & Hext & Hle & Hok)%IH.
      exists ([o] ++ added). split.
      * change (@nil RoadObject) with (@nil RoadObject ++ []).
        eapply Extends_trans; eassumption.
      * simpl. split; [lia | intros Hr; now rewrite Hok].
    + subst s1. intros [= <- <-]. exists []. split; [apply Extends_refl |].
      simpl. split; [lia | discriminate].
Qed.

(** The outer loop: on success one controlled vehicle per bin, each followed
    by its background vehicles. *)
Lemma bins_loop_spec (cls : VehicleClass) (bins : list Z) (s s' : Site)
    (r : Res unit) :
  Builder.bins_loop cls bins s = (r, s') ->
  exists added added_controlled,
    Extends s s' added added_controlled /\
    (r = Ok tt ->
     length added_controlled = length bins /\
     length added = (length bins + sum_list (Z.to_nat <$> bins))%nat).
Proof.
  revert s. induction bins as [| others rest IH]; intros s; simpl.
  - intros [= <- <-]. exists [], []. split; [apply Extends_refl | now intros _].
  - unfold mbind, B_bind.
    destruct (Builder.create_ego s) as [[[] | e] s1] eqn:Hego;
      apply create_ego_spec in Hego.
    2: { subst s1. intros [= <- <-]. exists [], [].
         split; [apply Extends_refl | discriminate]. }
    destruct Hego as (o & Hext1).
    destruct (Builder.others_loop cls (Z.to_nat others) s1) as [[[] | e] s2] eqn:Hothers;
      apply others_loop_spec in Hothers as (added2 & Hext2 & Hle & Hok).
    2: { intros [= <- <-]. exists ([o] ++ added2), ([o] ++ []).
         split; [eapply Extends_trans; eassumption | discriminate]. }
    intros (added3 & ac3 & Hext3 & Hcount)%IH.
    exists (([o] ++ added2) ++ added3), (([o] ++ []) ++ ac3).
    split.
    + eapply Extends_trans; [eapply Extends_trans |]; eassumption.
    + intros Hr. destruct (Hcount Hr) as [Hc Ha].
      change (list_fmap Z nat Z.to_nat rest) with (Z.to_nat <$> rest).
      rewrite !length_app, Hc, Ha, (Hok eq_refl). simpl length. lia.
Qed.

End BuilderFacts.

Section BuilderProperties.
Context `{VehicleFactory}.

(** [_create_vehicles] either fails in its preliminary lookups, leaving
    [self] alone, or empties the controlled vehicles and runs the loops. *)
Lemma create_vehicles_spec (s s' : Site) (r : Res unit) :
  Builder._create_vehicles s = (r, s') ->
  (s' = s /\ r <> Ok tt) \/
  (s' = clear_controlled s /\ r <> Ok tt) \/
  exists cls count num_bins bins,
    site_config s !! "vehicles_count" = Some count /\
    site_config s !! "controlled_vehicles" = Some num_bins /\
    near_split count num_bins = Ok (Some bins) /\
    Builder.bins_loop cls bins (clear_controlled s) = (r, s').
Proof.
  unfold Builder._create_vehicles, mbind, B_bind, lift_site, get_site, modify_site,
    getitem.
  destruct (site_config s !! "other_vehicles_type") as [path |];
    [| intros [= <- <-]; left; split; [reflexivity | discriminate]].
  destruct (class_from_path path) as [cls | e];
    [| intros [= <- <-]; left; split; [reflexivity | discriminate]].
  destruct (site_config s !! "vehicles_count") as [count |];
    [| intros [= <- <-]; left; split; [reflexivity | discriminate]].
  destruct (site_config s !! "controlled_vehicles") as [num_bins |];
    [| intros [= <- <-]; left; split; [reflexivity | discriminate]].
  destruct (near_split count num_bins) as [[bins |] | e] eqn:Hsplit;
    [| intros [= <- <-]; right; left; split; [reflexivity | discriminate]
     | intros [= <- <-]; left; split; [reflexivity | discriminate]].
  simpl. intros Hloop. right. right. exists cls, count, num_bins, bins. auto.
Qed.

(** X20: when [_create_vehicles] succeeds there is one controlled vehicle
    per bin of [near_split], and the road has gained one vehicle per bin
    plus the sizes of the bins. *)
Theorem create_vehicles_counts (s s' : Site) :
  Builder._create_vehicles s = (Ok tt, s') ->
  exists count num_bins bins,
    site_config s !! "vehicles_count" = Some count /\
    site_config s !! "controlled_vehicles" = Some num_bins /\
    near_split count num_bins = Ok (Some bins) /\
    length (controlled_vehicles s') = length bins /\
    length (road_vehicles s')
    = (length (road_vehicles s) + length bins + sum_list (Z.to_nat <$> bins))%nat.
Proof.
  intros [[_ Hr] | [[_ Hr] | (cls & count & num_bins & bins & Hc & Hn & Hsplit & Hloop)]]
    %create_vehicles_spec; [congruence | congruence |].
  exists count, num_bins, bins. repeat split; try assumption.
  - apply bins_loop_spec in Hloop as (added & ac & [Hroad Hctrl Hsub Hids Hfresh Hcfg Hnet Hhist Hchk] & Hcount).
    destruct (Hcount eq_refl) as [Hac _].
    now rewrite Hctrl.
  - apply bins_loop_spec in Hloop as (added & ac & [Hroad Hctrl Hsub Hids Hfresh Hcfg Hnet Hhist Hchk] & Hcount).
    destruct (Hcount eq_refl) as [_ Ha].
    rewrite Hroad, length_app, Ha. simpl. lia.
Qed.

Lemma create_vehicles_controlled_on_road (s s' : Site) :
  Builder._create_vehicles s = (Ok tt, s') ->
  controlled_vehicles s' `sublist_of` road_vehicles s'.
Proof.
  intros [[_ Hr] | [[_ Hr] | (cls & count & num_bins & bins & _ & _ & _ & Hloop)]]
    %create_vehicles_spec; [congruence | congruence |].
  apply bins_loop_spec
    in Hloop as (added & ac & [Hroad Hctrl Hsub _ _ _ _ _ _] & _).
  simpl in *. rewrite Hctrl, Hroad. now apply sublist_inserts_l.
Qed.

(** X21: whatever its outcome, [_create_vehicles] leaves the
    configuration and the network alone and keeps the vehicles already on
    the road, in front; once it has started, the controlled vehicles are
    distinct new objects, all on the road, in the same order. *)
Theorem create_vehicles_keeps (s s' : Site) (r : Res unit) :
  Builder._create_vehicles s = (r, s') ->
  site_config s' = site_config s /\
  site_network s' = site_network s /\
  road_vehicles s `prefix_of` road_vehicles s' /\
  (s' = s \/
   controlled_vehicles s' `sublist_of` road_vehicles s' /\
   NoDup (ident <$> controlled_vehicles s') /\
   Forall (fun o => (fresh s <= ident o < fresh s')%nat) (controlled_vehicles s')).
Proof.
  intros [[-> _] | [[-> _] | (cls & count & num_bins & bins & _ & _ & _ & Hloop)]]
    %create_vehicles_spec.
  - repeat split; auto.
  - simpl. repeat split; auto. right.
    split; [apply sublist_nil_l |]. split; constructor.
  - apply bins_loop_spec in Hloop as (added & ac & [Hroad Hctrl Hsub Hids Hfresh Hcfg Hnet Hhist Hchk] & _). simpl in *.
    split; [assumption |]. split; [assumption |].
    split; [rewrite Hroad; now apply prefix_app_r |].
    right. rewrite Hctrl, Hroad.
    assert (Hsubids : ident <$> ac `sublist_of` seq (fresh s) (length added))
      by (rewrite <- Hids; now apply fmap_sublist).
    split; [now apply sublist_inserts_l |].
    split; [eapply sublist_NoDup; [apply NoDup_seq | exact Hsubids] |].
    apply Forall_forall. intros o Ho.
    assert (Hin : ident o ∈ seq (fresh s) (length added)).
    { eapply elem_of_sublist; [| exact Hsubids].
      apply list_elem_of_fmap. eauto. }
    apply elem_of_seq in Hin. lia.
Qed.

(** With density zero the inner loop adds nothing: it succeeds only when
    asked for no vehicle. *)
Lemma others_loop_zero_density (cls : VehicleClass) (others : nat) (s s' : Site)
    (r : Res unit) :
  other_spacing (site_config s) = Raise ZeroDivisionError ->
  Builder.others_loop cls others s = (r, s') ->
  s' = s /\
  r = match others with O => Ok tt | S _ => Raise ZeroDivisionError end.
Proof.
  intros Hzero. destruct others as [| n]; simpl.
  - now intros [= <- <-].
  - unfold mbind, B_bind, Builder.create_other, mbind, B_bind, lift_site, get_site.
    rewrite Hzero. now intros [= <- <-].
Qed.

Lemma bins_loop_zero_density (cls : VehicleClass) (bins : list Z) (s s' : Site)
    (r : Res unit) :
  other_spacing (site_config s) = Raise ZeroDivisionError ->
  Builder.bins_loop cls bins s = (r, s') ->
  exists added,
    Extends s s' added added /\
    (r = Ok tt -> Forall (fun others => (others <= 0)%Z) bins).
Proof.
  revert s. induction bins as [| others rest IH]; intros s Hzero; simpl.
  - intros [= <- <-]. exists []. split; [apply Extends_refl | constructor].
  - unfold mbind, B_bind.
    destruct (Builder.create_ego s) as [[[] | e] s1] eqn:Hego;
      apply create_ego_spec in Hego.
    2: { subst s1. intros [= <- <-]. exists [].
         split; [apply Extends_refl | discriminate]. }
    destruct Hego as (o & Hext1).
    assert (Hzero1 : other_spacing (site_config s1) = Raise ZeroDivisionError)
      by (destruct Hext1 as [_ _ _ _ _ Hcfg1 _ _ _]; congruence).
    destruct (Builder.others_loop cls (Z.to_nat others) s1) as [r2 s2] eqn:Hothers.
    apply (others_loop_zero_density _ _ _ _ _ Hzero1) in Hothers as [-> ->].
    destruct (Z.to_nat others) as [| n] eqn:Hn.
    + intros (added & Hext & Hall)%IH; [| assumption].
      exists ([o] ++ added). split; [eapply Extends_trans; eassumption |].
      intros Hr. constructor; [lia | auto].
    + intros [= <- <-]. exists ([o] ++ []).
      split; [eapply Extends_trans; [eassumption | apply Extends_refl] | discriminate].
Qed.

(** X22: with [vehicles_density] 0 no background vehicle is ever placed:
    the vehicles added to the road are the controlled ones, and the call
    cannot succeed when some bin asks for a background vehicle. *)
Theorem create_vehicles_zero_density (s s' : Site) (r : Res unit)
    (density : Q) (count num_bins : Value) (bins : list Z) (path : Value)
    (cls : VehicleClass) :
  config_number (site_config s) "vehicles_density" = Ok density ->
  (density == 0)%Q ->
  site_config s !! "other_vehicles_type" = Some path ->
  class_from_path path = Ok cls ->
  site_config s !! "vehicles_count" = Some count ->
  site_config s !! "controlled_vehicles" = Some num_bins ->
  near_split count num_bins = Ok (Some bins) ->
  Builder._create_vehicles s = (r, s') ->
  road_vehicles s' = road_vehicles s ++ controlled_vehicles s' /\
  (Exists (fun others => (0 < others)%Z) bins -> r <> Ok tt).
Proof.
  intros Hdensity Hz Hpath Hcls Hcount Hnum Hsplit.
  assert (Hzero : other_spacing (site_config s) = Raise ZeroDivisionError).
  { unfold other_spacing. rewrite Hdensity. cbn [mbind Res_bind].
    apply Qeq_bool_iff in Hz. now rewrite Hz. }
  unfold Builder._create_vehicles, mbind, B_bind, lift_site, get_site, modify_site,
    getitem.
  rewrite Hpath, Hcls, Hcount, Hnum, Hsplit. simpl.
  intros (added & [Hroad Hctrl _ _ _ _ _ _ _] & Hall)
    %bins_loop_zero_density; [| exact Hzero].
  simpl in *. split; [congruence |].
  intros Hex Hr. specialize (Hall Hr).
  apply Exists_exists in Hex as (others & Hin & Hpos).
  rewrite Forall_forall in Hall. specialize (Hall others Hin). lia.
Qed.

(** X23: [HighwayEnvFast._create_vehicles] builds what the base method
    builds, same vehicles in the same order, and clears [check_collisions]
    on every vehicle of the road that is not controlled; the controlled
    vehicles stay on the road untouched. *)
Theorem fast_create_vehicles_disables_checks (s s' : Site) :
  HighwayEnvFast._create_vehicles s = (Ok tt, s') ->
  exists base,
    Builder._create_vehicles s = (Ok tt, base) /\
    controlled_vehicles s' = controlled_vehicles base /\
    ident <$> road_vehicles s' = ident <$> road_vehicles base /\
    body <$> road_vehicles s' = body <$> road_vehicles base /\
    Forall (fun o => o ∈ road_vehicles s') (controlled_vehicles s') /\
    Forall (fun o => ident o ∉ ident <$> controlled_vehicles s' ->
                     check_collisions o = false) (road_vehicles s').
Proof.
  unfold HighwayEnvFast._create_vehicles, mbind, B_bind, get_site, modify_site.
  destruct (Builder._create_vehicles s) as [[[] | e] base] eqn:Hbase;
    [| discriminate].
  intros [= <-]. exists base. split; [reflexivity |]. simpl.
  split; [reflexivity |].
  assert (Hident : forall o,
    ident (HighwayEnvFast.disable_check (controlled_vehicles base) o) = ident o)
    by (intros o; unfold HighwayEnvFast.disable_check; now destruct HighwayEnvFast.is_controlled).
  assert (Hbody : forall o,
    body (HighwayEnvFast.disable_check (controlled_vehicles base) o) = body o)
    by (intros o; unfold HighwayEnvFast.disable_check; now destruct HighwayEnvFast.is_controlled).
  split; [rewrite <- list_fmap_compose; apply list_fmap_ext; intros; apply Hident |].
  split; [rewrite <- list_fmap_compose; apply list_fmap_ext; intros; apply Hbody |].
  split.
  - apply create_vehicles_controlled_on_road in Hbase as Hsub.
    apply Forall_forall. intros o Ho.
    apply list_elem_of_fmap. exists o. split.
    + unfold HighwayEnvFast.disable_check, HighwayEnvFast.is_controlled.
      rewrite bool_decide_eq_true_2; [reflexivity |].
      apply list_elem_of_fmap. eauto.
    + eapply elem_of_sublist; eassumption.
  - apply Forall_forall. intros o' (o & -> & Ho)%list_elem_of_fmap.
    rewrite Hident. intros Hnot.
    unfold HighwayEnvFast.disable_check, HighwayEnvFast.is_controlled.
    now rewrite bool_decide_eq_false_2.
Qed.

(** [_create_road] puts a new, empty road in place, or fails and changes
    nothing. *)
Lemma create_road_spec (s s' : Site) (r : Res unit) :
  Builder._create_road s = (r, s') ->
  match r with
  | Ok _ =>
      exists lanes net history,
        site_config s !! "lanes_count" = Some lanes /\
        straight_road_network lanes 30 = Ok net /\
        site_config s !! "show_trajectories" = Some history /\
        s' = set_road net history s
  | Raise _ => s' = s
  end.
Proof.
  unfold Builder._create_road, mbind, B_bind, lift_site, get_site, modify_site, getitem.
  destruct (site_config s !! "lanes_count") as [lanes |]; [| now intros [= <- <-]].
  destruct (straight_road_network lanes 30) as [net | e] eqn:Hnet;
    [| now intros [= <- <-]].
  destruct (site_config s !! "show_trajectories") as [history |];
    [| now intros [= <- <-]].
  intros [= <- <-]. exists lanes, net, history. auto.
Qed.

(** X24: after a successful [_reset] the road holds the new vehicles
    only, one per bin plus the sizes of the bins, whatever it held before,
    and the controlled vehicles are among them. *)
Theorem reset_populates_fresh_road (s s' : Site) :
  Builder._reset s = (Ok tt, s') ->
  exists count num_bins bins,
    site_config s !! "vehicles_count" = Some count /\
    site_config s !! "controlled_vehicles" = Some num_bins /\
    near_split count num_bins = Ok (Some bins) /\
    length (controlled_vehicles s') = length bins /\
    length (road_vehicles s') = (length bins + sum_list (Z.to_nat <$> bins))%nat /\
    controlled_vehicles s' `sublist_of` road_vehicles s'.
Proof.
  unfold Builder._reset, mbind, B_bind.
  destruct (Builder._create_road s) as [[[] | e] s1] eqn:Hroad; [| discriminate].
  apply create_road_spec in Hroad as (lanes & net & history & _ & _ & _ & ->).
  intros Hrun.
  pose proof (create_vehicles_controlled_on_road _ _ Hrun) as Hsub.
  apply create_vehicles_counts in Hrun
    as (count & num_bins & bins & Hc & Hn & Hsplit & Hctrl & Hlen).
  exists count, num_bins, bins. simpl in *.
  repeat split; assumption.
Qed.

End BuilderProperties.

(** * The further properties on the concrete scenarios *)

(** A run whose result is known is that result paired with the state it
    leaves. *)
Lemma run_result {S A : Type} (run : Res A * S) (a : A) :
  run.1 = Ok a -> run = (Ok a, run.2).
Proof. destruct run as [r s]. simpl. now intros ->. Qed.

Lemma run_result_raise {S A : Type} (run : Res A * S) (e : PyError) :
  run.1 = Raise e -> run = (Raise e, run.2).
Proof. destruct run as [r s]. simpl. now intros ->. Qed.

Lemma high_speed_reward_clamped_witness :
  let env := Scenario.env Scenario.base_config (Scenario.ego false true) in
  let dev := Scenario.env Scenario.dev_config (Scenario.ego false true) in
  (exists comps h,
     @HighwayEnv._rewards _ Scenario.collaborators env (Discrete 1) = Ok comps /\
     components_getitem comps "high_speed_reward" = Ok h /\ (0 <= h <= 1)%Q) /\
  (exists comps h,
     (@DevHighway._rewards _ Scenario.collaborators Scenario.first_action dev).1
     = Ok comps /\
     components_getitem comps "high_speed_reward" = Ok h /\ (0 <= h <= 1)%Q).
Proof.
  intros env dev.
  assert (Hwidth : ~ (20 == 30)%Q) by discriminate.
  split.
  - eexists.
    assert (Hrun : @HighwayEnv._rewards _ Scenario.collaborators env (Discrete 1) = Ok _)
      by (vm_compute; reflexivity).
    assert (Hcfg : config env !! "reward_speed_range" = Some (VList [20; 30]%Q))
      by (vm_compute; reflexivity).
    destruct (@high_speed_reward_clamped _ Scenario.collaborators env (Discrete 1) _
                20%Q 30%Q [] Hcfg Hwidth (or_introl Hrun)) as (h & Hh & _ & Hb).
    exists h. split; [exact Hrun |]. split; assumption.
  - eexists.
    assert (Hrun : (@DevHighway._rewards _ Scenario.collaborators
                      Scenario.first_action dev).1 = Ok _)
      by (vm_compute; reflexivity).
    assert (Hcfg : config dev !! "reward_speed_range" = Some (VList [20; 30]%Q))
      by (vm_compute; reflexivity).
    destruct (@high_speed_reward_clamped _ Scenario.collaborators dev
                Scenario.first_action _ 20%Q 30%Q [] Hcfg Hwidth (or_intror Hrun))
      as (h & Hh & _ & Hb).
    exists h. split; [exact Hrun |]. split; assumption.
Defined.

Lemma high_speed_reward_saturates_witness :
  let env := Scenario.env Scenario.base_config (Scenario.ego false true) in
  exists comps h,
    @HighwayEnv._rewards _ Scenario.collaborators env (Discrete 1) = Ok comps /\
    components_getitem comps "high_speed_reward" = Ok h /\ (h == 1 # 2)%Q.
Proof.
  intros env. eexists.
  assert (Hrun : @HighwayEnv._rewards _ Scenario.collaborators env (Discrete 1) = Ok _)
    by (vm_compute; reflexivity).
  assert (Hcfg : config env !! "reward_speed_range" = Some (VList [20; 30]%Q)).
  { vm_compute. reflexivity. }
  destruct (@high_speed_reward_saturates _ Scenario.collaborators env (Discrete 1) _
              20%Q 30%Q [] Hcfg eq_refl (or_introl Hrun)) as (h & Hh & _ & _ & Hmid).
  exists h. split; [exact Hrun |]. split; [exact Hh |].
  eapply Qeq_trans; [apply Hmid; split; vm_compute; discriminate |].
  vm_compute. reflexivity.
Defined.

Lemma lane_centering_reward_range_witness :
  let env := Scenario.env Scenario.dev_config (Scenario.ego false true) in
  exists comps c,
    (@DevHighway._rewards _ Scenario.collaborators Scenario.first_action env).1 = Ok comps /\
    components_getitem comps "lane_centering_reward" = Ok c /\ (0 < c <= 1)%Q.
Proof.
  intros env. eexists.
  assert (Hrun : (@DevHighway._rewards _ Scenario.collaborators
                    Scenario.first_action env).1 = Ok _) by (vm_compute; reflexivity).
  assert (Hcost : config_number (config env) "lane_centering_cost" = Ok 4%Q)
    by (vm_compute; reflexivity).
  assert (Hpos : (0 <= 4)%Q) by discriminate.
  destruct (@lane_centering_reward_range _ Scenario.collaborators env
              Scenario.first_action _ 4%Q Hcost Hpos Hrun) as (c & Hc & _ & Hb & _).
  exists c. split; [exact Hrun |]. split; assumption.
Defined.

Lemma smoothness_penalties_spec_witness :
  let env := Scenario.env Scenario.dev_config (Scenario.ego false true) in
  exists comps ps pa,
    (@DevHighway._rewards _ Scenario.collaborators Scenario.first_action env).1 = Ok comps /\
    components_getitem comps "abrupt_steering_penalty" = Ok ps /\
    components_getitem comps "abrupt_acceleration_penalty" = Ok pa /\
    (ps <= 0)%Q /\ (pa <= 0)%Q.
Proof.
  intros env. eexists.
  assert (Hrun : (@DevHighway._rewards _ Scenario.collaborators
                    Scenario.first_action env).1 = Ok _) by (vm_compute; reflexivity).
  assert (Hws : config_number (config env) "abrupt_steering_penalty" = Ok (19 # 1000)%Q)
    by (vm_compute; reflexivity).
  assert (Hwa : config_number (config env) "abrupt_acceleration_penalty"
                = Ok (1 # 1000)%Q) by (vm_compute; reflexivity).
  destruct (@smoothness_penalties_spec _ Scenario.collaborators env
              Scenario.first_action _ (19 # 1000)%Q (1 # 1000)%Q (1 # 2)%Q (1 # 10)%Q
              Hws Hwa eq_refl eq_refl Hrun)
    as (ps & pa & Hps & Hpa & _ & _ & Hs & Ha).
  exists ps, pa. split; [exact Hrun |]. split; [exact Hps |]. split; [exact Hpa |].
  split; [apply Hs | apply Ha]; discriminate.
Defined.

Lemma repeated_action_costs_nothing_witness :
  let env := Scenario.env Scenario.dev_config (Scenario.ego false true) in
  let env1 := Scenario.rewards_state Scenario.first_action env in
  let env1' := Scenario.set_vehicle (Scenario.ego false false) env1 in
  exists comps2 ps pa,
    (@DevHighway._rewards _ Scenario.collaborators Scenario.first_action env1').1
    = Ok comps2 /\
    components_getitem comps2 "abrupt_steering_penalty" = Ok ps /\
    components_getitem comps2 "abrupt_acceleration_penalty" = Ok pa /\
    (ps == 0)%Q /\ (pa == 0)%Q.
Proof.
  intros env env1 env1'. eexists.
  assert (Hok2 : (@DevHighway._rewards _ Scenario.collaborators
                    Scenario.first_action env1').1 = Ok _) by (vm_compute; reflexivity).
  assert (Hok1 : (@DevHighway._rewards _ Scenario.collaborators
                    Scenario.first_action env).1 = Ok _) by (vm_compute; reflexivity).
  pose proof (run_result _ _ Hok2) as Hrun2.
  pose proof (run_result _ _ Hok1 : _ = (_, env1)) as Hrun1.
  destruct (@repeated_action_costs_nothing _ Scenario.collaborators env env1 env1' _
              Scenario.first_action _ _ Hrun1 eq_refl eq_refl Hrun2)
    as (ps & pa & Hps & Hpa & Hs & Ha).
  exists ps, pa. split; [now rewrite Hrun2 |]. repeat split; assumption.
Defined.

Lemma policies_share_components_witness :
  let env := Scenario.env Scenario.dev_config (Scenario.ego true true) in
  exists base extended,
    @HighwayEnv._rewards _ Scenario.collaborators env Scenario.first_action = Ok base /\
    (@DevHighway._rewards _ Scenario.collaborators Scenario.first_action env).1
    = Ok extended /\
    components_getitem extended "right_lane_reward"
    = components_getitem base "right_lane_reward" /\
    components_getitem extended "high_speed_reward"
    = components_getitem base "high_speed_reward" /\
    components_getitem extended "on_road_reward"
    = components_getitem base "on_road_reward".
Proof.
  intros env. eexists _, _.
  assert (Hbase : @HighwayEnv._rewards _ Scenario.collaborators env
                    Scenario.first_action = Ok _) by (vm_compute; reflexivity).
  assert (Hext : (@DevHighway._rewards _ Scenario.collaborators
                    Scenario.first_action env).1 = Ok _) by (vm_compute; reflexivity).
  destruct (@policies_share_components _ Scenario.collaborators env
              Scenario.first_action _ _ Hbase Hext) as (H1 & H2 & H3 & _).
  split; [exact Hbase |]. split; [exact Hext |]. repeat split; assumption.
Defined.

Lemma rewards_rejects_short_action_witness :
  let env := Scenario.env Scenario.dev_config (Scenario.ego false true) in
  @DevHighway._rewards _ Scenario.collaborators (Continuous [1 # 2]%Q) env
  = (Raise IndexError, env) /\
  @DevHighway._rewards _ Scenario.collaborators (DiscreteNumpy 1) env
  = (Raise IndexError, env) /\
  @DevHighway._rewards _ Scenario.collaborators (Discrete 1) env
  = (Raise TypeError, env).
Proof.
  intros env.
  assert (Hrange : getitem (config env) "reward_speed_range" ≫= as_interval
                   = Ok (20, 30)%Q) by (vm_compute; reflexivity).
  assert (Hweight : config env !! "abrupt_steering_penalty" = Some (VNum (19 # 1000)))
    by (vm_compute; reflexivity).
  assert (Hshort : (length [1 # 2]%Q < 2)%nat) by (simpl; lia).
  split; [| split].
  - destruct (@rewards_rejects_short_action _ Scenario.collaborators env
                (Continuous [1 # 2]%Q) _ _ Hrange Hweight Hshort) as (e & Hrun & ->).
    exact Hrun.
  - destruct (@rewards_rejects_short_action _ Scenario.collaborators env
                (DiscreteNumpy 1) _ _ Hrange Hweight I) as (e & Hrun & ->).
    exact Hrun.
  - destruct (@rewards_rejects_short_action _ Scenario.collaborators env
                (Discrete 1) _ _ Hrange Hweight I) as (e & Hrun & ->).
    exact Hrun.
Defined.

Lemma rewards_fails_after_assignments_witness :
  let env := Scenario.env (delete "lane_centering_cost" Scenario.dev_config)
                          (Scenario.ego false true) in
  @DevHighway._rewards _ Scenario.collaborators Scenario.first_action env
  = (Raise (KeyError "lane_centering_cost"),
     set_previous_acceleration (1 # 10) (set_previous_steering (1 # 2) env)).
Proof.
  intros env.
  assert (Hrange : getitem (config env) "reward_speed_range" ≫= as_interval
                   = Ok (20, 30)%Q) by (vm_compute; reflexivity).
  assert (Hws : config_number (config env) "abrupt_steering_penalty" = Ok (19 # 1000)%Q)
    by (vm_compute; reflexivity).
  apply (proj2 (@rewards_fails_after_assignments _ Scenario.collaborators env
                  Scenario.first_action (20, 30)%Q (19 # 1000)%Q (1 # 2)%Q
                  Hrange Hws eq_refl) (1 # 1000)%Q (1 # 10)%Q);
    vm_compute; reflexivity.
Defined.

Lemma reward_without_normalization_witness :
  let env := Scenario.env (<["normalize_reward" := VBool false]> Scenario.base_config)
                          (Scenario.ego false true) in
  exists comps total,
    @HighwayEnv._rewards _ Scenario.collaborators env (Discrete 1) = Ok comps /\
    weighted_sum (config env) comps 0 = Ok total /\
    @HighwayEnv._reward _ Scenario.collaborators env (Discrete 1) = Ok (total * 1)%Q.
Proof.
  intros env. eexists _, _.
  assert (Hrun : @HighwayEnv._rewards _ Scenario.collaborators env (Discrete 1) = Ok _)
    by (vm_compute; reflexivity).
  match type of Hrun with
  | _ = Ok ?comps =>
      assert (Hsum : weighted_sum (config env) comps 0 = Ok _)
        by (vm_compute; reflexivity)
  end.
  assert (Hnorm : config env !! "normalize_reward" = Some (VBool false))
    by (vm_compute; reflexivity).
  split; [exact Hrun |]. split; [exact Hsum |].
  apply (proj1 (@reward_without_normalization _ Scenario.collaborators env (Discrete 1)
                  _ _ (VBool false) Hnorm eq_refl Hsum) Hrun).
Defined.

Lemma reward_strict_lookups_witness :
  let env := Scenario.env (delete "collision_reward" Scenario.base_config)
                          (Scenario.ego false true) in
  @HighwayEnv._reward _ Scenario.collaborators env (Discrete 1)
  = Raise (KeyError "collision_reward").
Proof.
  intros env.
  assert (Hrun : @HighwayEnv._rewards _ Scenario.collaborators env (Discrete 1) = Ok _)
    by (vm_compute; reflexivity).
  match type of Hrun with
  | _ = Ok ?comps =>
      assert (Hsum : weighted_sum (config env) comps 0 = Ok _)
        by (vm_compute; reflexivity)
  end.
  apply (proj2 (proj1 (@reward_strict_lookups _ Scenario.collaborators env (Discrete 1)
                         _ _ Hsum) Hrun) (VBool true));
    vm_compute; reflexivity.
Defined.

Lemma default_reward_in_unit_interval_witness :
  let env := Scenario.env Scenario.base_config (Scenario.ego true true) in
  exists r,
    @HighwayEnv._reward _ Scenario.collaborators env (Discrete 1) = Ok r /\
    (0 <= r <= 1)%Q.
Proof.
  intros env.
  apply (@default_reward_in_unit_interval _ Scenario.collaborators env (Discrete 1)).
  - reflexivity.
  - reflexivity.
  - vm_compute. split; [discriminate | reflexivity].
Defined.

Lemma default_crash_cost_witness :
  let env := Scenario.env Scenario.base_config (Scenario.ego false true) in
  exists crashed intact,
    @HighwayEnv._reward _ Scenario.collaborators (set_crashed true env) (Discrete 1)
    = Ok crashed /\
    @HighwayEnv._reward _ Scenario.collaborators (set_crashed false env) (Discrete 1)
    = Ok intact /\
    (crashed == intact - (2 # 3) * 1)%Q.
Proof.
  intros env.
  apply (@default_crash_cost _ Scenario.collaborators env (Discrete 1)); reflexivity.
Defined.

Lemma extended_default_crash_bonus_witness :
  let env := Scenario.env Scenario.dev_config (Scenario.ego false true) in
  exists crashed intact,
    (@DevHighway._reward _ Scenario.collaborators Scenario.first_action
       (set_crashed true env)).1 = Ok crashed /\
    (@DevHighway._reward _ Scenario.collaborators Scenario.first_action
       (set_crashed false env)).1 = Ok intact /\
    (crashed == intact + (25 # 37) * 1)%Q.
Proof.
  intros env.
  apply (@extended_default_crash_bonus _ Scenario.collaborators env
           Scenario.first_action (1 # 2)%Q (1 # 10)%Q); reflexivity.
Defined.

Lemma default_configs_inherit_witness :
  @HighwayEnv.default_config _ Scenario.collaborators !! "policy_frequency"
  = Some (VNum 1) /\
  @HighwayEnvFast.default_config _ Scenario.collaborators !! "collision_reward"
  = @HighwayEnv.default_config _ Scenario.collaborators !! "collision_reward" /\
  @DevHighway.default_config _ Scenario.collaborators !! "reward_speed_range"
  = @HighwayEnv.default_config _ Scenario.collaborators !! "reward_speed_range".
Proof.
  split; [| split].
  - rewrite (proj1 (@default_configs_inherit _ Scenario.collaborators "policy_frequency"));
      [reflexivity |].
    apply (bool_decide_unpack _). vm_compute. exact I.
  - apply (proj1 (proj2 (@default_configs_inherit _ Scenario.collaborators
                           "collision_reward"))).
    apply (bool_decide_unpack _). vm_compute. exact I.
  - apply (proj2 (proj2 (@default_configs_inherit _ Scenario.collaborators
                           "reward_speed_range"))).
    apply (bool_decide_unpack _). vm_compute. exact I.
Defined.

Lemma default_termination_is_crash_witness :
  @HighwayEnv._is_terminated _
    (Scenario.env Scenario.dev_config (Scenario.ego false false)) = Ok false /\
  @HighwayEnv._is_terminated _
    (Scenario.env Scenario.base_config (Scenario.ego true true)) = Ok true.
Proof.
  split.
  - apply (@default_termination_is_crash _ Scenario.collaborators
             (Scenario.env Scenario.dev_config (Scenario.ego false false))).
    right. right. reflexivity.
  - apply (@default_termination_is_crash _ Scenario.collaborators
             (Scenario.env Scenario.base_config (Scenario.ego true true))).
    left. reflexivity.
Defined.

Lemma is_terminated_raises_witness :
  @HighwayEnv._is_terminated _
    (Scenario.env (delete "offroad_terminal" Scenario.base_config)
                  (Scenario.ego false false))
  = Raise (KeyError "offroad_terminal").
Proof.
  apply (proj2 (@is_terminated_raises _
                  (Scenario.env (delete "offroad_terminal" Scenario.base_config)
                                (Scenario.ego false false))
                  (KeyError "offroad_terminal"))).
  split; [reflexivity |]. split; [vm_compute; reflexivity | reflexivity].
Defined.

Lemma is_truncated_spec_witness :
  let env := Scenario.env Scenario.base_config (Scenario.ego false true) in
  exists b,
    @HighwayEnv._is_truncated _ env = Ok b /\
    (b = true <-> (40 <= time env)%Q).
Proof.
  intros env.
  assert (Hd : config_number (config env) "duration" = Ok 40%Q)
    by (vm_compute; reflexivity).
  destruct (@is_truncated_spec _ env 40%Q Hd) as (b & Hb & Hiff & _).
  exists b. split; assumption.
Defined.

Lemma first_rewards_after_reset_witness :
  let env := Scenario.env Scenario.dev_config (Scenario.ego false true) in
  let env0 := Scenario.reset env in
  exists comps ps pa,
    (@DevHighway._rewards _ Scenario.collaborators Scenario.first_action env0).1
    = Ok comps /\
    components_getitem comps "abrupt_steering_penalty" = Ok ps /\
    components_getitem comps "abrupt_acceleration_penalty" = Ok pa /\
    (ps == - ((19 # 1000) * Qabs (1 # 2)))%Q /\
    (pa == - ((1 # 1000) * Qabs (1 # 10)))%Q.
Proof.
  intros env env0. eexists.
  assert (Hrun : (@DevHighway._rewards _ Scenario.collaborators
                    Scenario.first_action env0).1 = Ok _) by (vm_compute; reflexivity).
  assert (Hok : (@DevHighway._reset _ Scenario.collaborators env).1 = Ok tt)
    by (vm_compute; reflexivity).
  pose proof (run_result _ _ Hok : @DevHighway._reset _ Scenario.collaborators env
                                   = (Ok tt, env0)) as Hreset.
  assert (Hws : config_number (config env0) "abrupt_steering_penalty" = Ok (19 # 1000)%Q)
    by (vm_compute; reflexivity).
  assert (Hwa : config_number (config env0) "abrupt_acceleration_penalty"
                = Ok (1 # 1000)%Q) by (vm_compute; reflexivity).
  destruct (@first_rewards_after_reset _ Scenario.collaborators env env0
              Scenario.first_action _ (19 # 1000)%Q (1 # 1000)%Q (1 # 2)%Q (1 # 10)%Q
              Hreset Hws Hwa eq_refl eq_refl Hrun) as (ps & pa & Hps & Hpa & Hs & Ha).
  exists ps, pa. split; [exact Hrun |]. repeat split; assumption.
Defined.

Lemma create_vehicles_counts_witness :
  let s := BuilderScenario.site 1 in
  let s' := (@Builder._create_vehicles _ BuilderScenario.factory s).2 in
  exists count num_bins bins,
    site_config s !! "vehicles_count" = Some count /\
    site_config s !! "controlled_vehicles" = Some num_bins /\
    @near_split _ BuilderScenario.factory count num_bins = Ok (Some bins) /\
    length (controlled_vehicles s') = length bins /\
    length (road_vehicles s')
    = (length (road_vehicles s) + length bins + sum_list (Z.to_nat <$> bins))%nat.
Proof.
  intros s s'.
  assert (Hok : (@Builder._create_vehicles _ BuilderScenario.factory s).1 = Ok tt)
    by (vm_compute; reflexivity).
  exact (@create_vehicles_counts _ BuilderScenario.factory s s' (run_result _ _ Hok)).
Defined.

Lemma create_vehicles_keeps_witness :
  let s := BuilderScenario.site 0 in
  let s' := (@Builder._create_vehicles _ BuilderScenario.factory s).2 in
  site_config s' = site_config s /\
  site_network s' = site_network s /\
  road_vehicles s `prefix_of` road_vehicles s' /\
  (s' = s \/
   controlled_vehicles s' `sublist_of` road_vehicles s' /\
   NoDup (ident <$> controlled_vehicles s') /\
   Forall (fun o => (fresh s <= ident o < fresh s')%nat) (controlled_vehicles s')).
Proof.
  intros s s'.
  assert (Hfail : (@Builder._create_vehicles _ BuilderScenario.factory s).1
                  = Raise ZeroDivisionError) by (vm_compute; reflexivity).
  exact (@create_vehicles_keeps _ BuilderScenario.factory s s'
           (Raise ZeroDivisionError) (run_result_raise _ _ Hfail)).
Defined.

Lemma create_vehicles_zero_density_witness :
  let s := BuilderScenario.site 0 in
  let run := @Builder._create_vehicles _ BuilderScenario.factory s in
  road_vehicles run.2 = road_vehicles s ++ controlled_vehicles run.2 /\
  run.1 <> Ok tt.
Proof.
  intros s run.
  assert (Hdensity : config_number (site_config s) "vehicles_density" = Ok 0%Q)
    by (vm_compute; reflexivity).
  assert (Hpath : site_config s !! "other_vehicles_type"
                  = Some (VStr "highway_env.vehicle.behavior.IDMVehicle"))
    by (vm_compute; reflexivity).
  assert (Hcount : site_config s !! "vehicles_count" = Some (VNum 3))
    by (vm_compute; reflexivity).
  assert (Hbins : site_config s !! "controlled_vehicles" = Some (VNum 2))
    by (vm_compute; reflexivity).
  destruct (@create_vehicles_zero_density _ BuilderScenario.factory s run.2 run.1
              0%Q (VNum 3) (VNum 2) [2; 1]%Z
              (VStr "highway_env.vehicle.behavior.IDMVehicle")
              "highway_env.vehicle.behavior.IDMVehicle"%string
              Hdensity (Qeq_refl 0) Hpath eq_refl Hcount Hbins eq_refl
              (surjective_pairing run))
    as [Hroad Hfail].
  split; [exact Hroad |]. apply Hfail. left. reflexivity.
Defined.

Lemma fast_create_vehicles_disables_checks_witness :
  let s := BuilderScenario.site 1 in
  let s' := (@HighwayEnvFast._create_vehicles _ BuilderScenario.factory s).2 in
  exists base,
    @Builder._create_vehicles _ BuilderScenario.factory s = (Ok tt, base) /\
    controlled_vehicles s' = controlled_vehicles base /\
    ident <$> road_vehicles s' = ident <$> road_vehicles base /\
    body <$> road_vehicles s' = body <$> road_vehicles base /\
    Forall (fun o => o ∈ road_vehicles s') (controlled_vehicles s') /\
    Forall (fun o => ident o ∉ ident <$> controlled_vehicles s' ->
                     check_collisions o = false) (road_vehicles s').
Proof.
  intros s s'.
  assert (Hok : (@HighwayEnvFast._create_vehicles _ BuilderScenario.factory s).1 = Ok tt)
    by (vm_compute; reflexivity).
  exact (@fast_create_vehicles_disables_checks _ BuilderScenario.factory s s'
           (run_result _ _ Hok)).
Defined.

Lemma reset_populates_fresh_road_witness :
  let s := BuilderScenario.site 1 in
  let s' := (@Builder._reset _ BuilderScenario.factory s).2 in
  exists count num_bins bins,
    site_config s !! "vehicles_count" = Some count /\
    site_config s !! "controlled_vehicles" = Some num_bins /\
    @near_split _ BuilderScenario.factory count num_bins = Ok (Some bins) /\
    length (controlled_vehicles s') = length bins /\
    length (road_vehicles s') = (length bins + sum_list (Z.to_nat <$> bins))%nat /\
    controlled_vehicles s' `sublist_of` road_vehicles s'.
Proof.
  intros s s'.
  assert (Hok : (@Builder._reset _ BuilderScenario.factory s).1 = Ok tt)
    by (vm_compute; reflexivity).
  exact (@reset_populates_fresh_road _ BuilderScenario.factory s s'
           (run_result _ _ Hok)).
Defined.

